(** * qmusiclooper: the extension pipeline of [extend.py]

    A shallow embedding of [get_args] and [main] of [extend.py].
    The script validates the command-line namespace, drives the
    PyMusicLooper export handler, transcodes to M4A when asked to,
    copies tags and file dates onto the result and removes the
    intermediate file.

    Effects are kept explicit: every call to a collaborator
    (the export handler, ffmpeg, [copy_metadata], [copy_filedate],
    [Path.unlink], the logger, [os.environ]) is recorded in a trace,
    and Python exceptions are the [Raised] outcome of a computation. *)

From Stdlib Require Import Bool List String Ascii ZArith Lia.
From Stdlib Require Import SpecFloat.
Import ListNotations.

Local Open Scope list_scope.
Local Open Scope string_scope.

(** ** Python strings (ASCII part) *)

Module Str.

(** [s[:n]] *)
Fixpoint take (n : nat) (s : string) : string :=
  match n, s with
  | O, _ => EmptyString
  | S _, EmptyString => EmptyString
  | S k, String c r => String c (take k r)
  end.

(** [s[n:]] *)
Fixpoint drop (n : nat) (s : string) : string :=
  match n, s with
  | O, _ => s
  | S _, EmptyString => EmptyString
  | S k, String _ r => drop k r
  end.

(** [s.rfind(c)], with [None] for Python's [-1]. *)
Fixpoint rfind (c : ascii) (s : string) : option nat :=
  match s with
  | EmptyString => None
  | String d r =>
      match rfind c r with
      | Some i => Some (S i)
      | None => if Ascii.eqb d c then Some O else None
      end
  end.

(** [c in s] for a one-character [c]. *)
Fixpoint contains (c : ascii) (s : string) : bool :=
  match s with
  | EmptyString => false
  | String d r => Ascii.eqb d c || contains c r
  end.

Definition startswith (c : ascii) (s : string) : bool :=
  match s with
  | EmptyString => false
  | String d _ => Ascii.eqb d c
  end.

Definition lower_char (c : ascii) : ascii :=
  let n := nat_of_ascii c in
  if (65 <=? n)%nat && (n <=? 90)%nat then ascii_of_nat (n + 32) else c.

Definition upper_char (c : ascii) : ascii :=
  let n := nat_of_ascii c in
  if (97 <=? n)%nat && (n <=? 122)%nat then ascii_of_nat (n - 32) else c.

(** [s.lower()] and [s.upper()] *)
Fixpoint lower (s : string) : string :=
  match s with
  | EmptyString => EmptyString
  | String c r => String (lower_char c) (lower r)
  end.

Fixpoint upper (s : string) : string :=
  match s with
  | EmptyString => EmptyString
  | String c r => String (upper_char c) (upper r)
  end.

(** [sep.join(l)] *)
Fixpoint join (sep : string) (l : list string) : string :=
  match l with
  | [] => EmptyString
  | [x] => x
  | x :: r => x ++ sep ++ join sep r
  end.

(** [x in l] for a list of strings. *)
Fixpoint mem (x : string) (l : list string) : bool :=
  match l with
  | [] => false
  | y :: r => String.eqb x y || mem x r
  end.

End Str.

(** ** [pathlib.Path] (POSIX flavour)

    A path is its anchor ([""] or ["/"]) and the components below it.
    Two paths are equal when both agree, as [PurePosixPath.__eq__]
    has it. *)

Record Path : Type := mkPath {
  anchor : string;
  parts : list string
}.

Module PathOps.

Fixpoint list_eqb (l1 l2 : list string) : bool :=
  match l1, l2 with
  | [], [] => true
  | x :: r1, y :: r2 => String.eqb x y && list_eqb r1 r2
  | _, _ => false
  end.

(** [p == q] *)
Definition eqb (p q : Path) : bool :=
  String.eqb (anchor p) (anchor q) && list_eqb (parts p) (parts q).

(** [str(p)] *)
Definition str (p : Path) : string :=
  match anchor p, parts p with
  | EmptyString, [] => "."
  | a, l => a ++ Str.join "/" l
  end.

(** [p.name]: the last component, [""] when there is none. *)
Definition name (p : Path) : string := last (parts p) EmptyString.

(** [p.parent]: the path without its last component; a path
    without components is its own parent. *)
Definition parent (p : Path) : Path :=
  match parts p with
  | [] => p
  | _ => mkPath (anchor p) (removelast (parts p))
  end.

(** [p.suffix]: from the last dot of the name on, when that dot
    is neither the first nor the last character. *)
Definition suffix_of_name (n : string) : string :=
  match Str.rfind "."%char n with
  | Some i =>
      if (0 <? i)%nat && (i <? String.length n - 1)%nat
      then Str.drop i n else EmptyString
  | None => EmptyString
  end.

Definition suffix (p : Path) : string := suffix_of_name (name p).

(** [p.with_name(n)] for a path that has a name. *)
Definition with_name (p : Path) (n : string) : Path :=
  mkPath (anchor p) (removelast (parts p) ++ [n])%list.

(** The name [with_suffix] builds: the old suffix, when there is
    one, is cut off and the new one appended. *)
Definition replace_suffix (n sfx : string) : string :=
  let old := suffix_of_name n in
  match old with
  | EmptyString => n ++ sfx
  | _ => Str.take (String.length n - String.length old) n ++ sfx
  end.

(** The suffixes [with_suffix] accepts. *)
Definition valid_suffix (sfx : string) : bool :=
  negb (Str.contains "/"%char sfx)
  && negb ((negb (String.eqb sfx EmptyString) && negb (Str.startswith "."%char sfx))
           || String.eqb sfx ".").

(** [p.with_suffix(sfx)]; [None] stands for the [ValueError] of an
    invalid suffix or of a path with an empty name. *)
Definition with_suffix (p : Path) (sfx : string) : option Path :=
  if negb (valid_suffix sfx) then None
  else if String.eqb (name p) EmptyString then None
  else Some (with_name p (replace_suffix (name p) sfx)).

End PathOps.

(** ** Python numbers

    A [float] is an IEEE 754 value; the literal [0] of the source is
    the integer zero. *)

Definition float : Type := spec_float.

Inductive pynum : Type :=
| PInt (z : Z)
| PFloat (f : float).

Module Float.

Definition zero : float := S754_zero false.

(** [f == 0]: both signed zeros compare equal to [0], NaN to nothing. *)
Definition eq_zero (f : float) : bool := SFeqb f zero.

(** [f < 0] *)
Definition lt_zero (f : float) : bool := SFltb f zero.

(** [bool(f)] *)
Definition truthy (f : float) : bool := negb (eq_zero f).

End Float.

(** ** Exceptions, outcomes and traces *)

(** [Failure] is any other exception of class [Exception] (an
    [OSError], [ffmpeg.Error], ...); [BaseFailure] is an exception
    outside that class ([KeyboardInterrupt], [SystemExit]). *)
Inductive exn : Type :=
| ArgumentError (argument : string) (message : string)
| ValueError (message : string)
| UnsupportedFormat (repr : string)
| Failure (repr : string)
| BaseFailure (repr : string).

(** [repr(exc)], as [{exc!r}] prints it. *)
Definition exn_repr (e : exn) : string :=
  match e with
  | ArgumentError a m => "ArgumentError(" ++ a ++ ", " ++ m ++ ")"
  | ValueError m => "ValueError(" ++ m ++ ")"
  | UnsupportedFormat r => r
  | Failure r => r
  | BaseFailure r => r
  end.

(** [isinstance(exc, UnsupportedFormat)] *)
Definition is_UnsupportedFormat (e : exn) : bool :=
  match e with
  | UnsupportedFormat _ => true
  | _ => false
  end.

Inductive outcome (A : Type) : Type :=
| Returned (a : A)
| Raised (e : exn).

Arguments Returned {A} a.
Arguments Raised {A} e.

Inductive level : Type := INFO | ERROR.

(** The keyword arguments [main] builds the export handler from. *)
Module LoopExportHandler.

Record t : Type := make {
  path : string;
  output_dir : string;
  min_duration_multiplier : float;
  extended_length : float;
  fade_length : pynum;
  disable_fade_out : bool;
  batch_mode : bool;
  brute_force : bool;
  format : string
}.

End LoopExportHandler.

(** What a run does to the world, in order. *)
Inductive event : Type :=
| FilterWarnings (action : string)
| SetupRootLogger
| SetEnviron (key value : string)
| Log (lvl : level) (message : string)
| ExtendTrack (handler : LoopExportHandler.t)
| FfmpegRun (command : list string)
| CopyMetadata (src dst : Path)
| CopyFiledate (src dst : Path)
| Unlink (target : Path).

(** A computation: the events it performed and how it ended. *)
Definition Run (A : Type) : Type := (list event * outcome A)%type.

Definition trace {A : Type} (m : Run A) : list event := fst m.
Definition result {A : Type} (m : Run A) : outcome A := snd m.

Definition ret {A : Type} (a : A) : Run A := ([], Returned a).

Definition raise {A : Type} (e : exn) : Run A := ([], Raised e).

Definition bind {A B : Type} (m : Run A) (k : A -> Run B) : Run B :=
  match result m with
  | Returned a => ((trace m ++ trace (k a))%list, result (k a))
  | Raised e => (trace m, Raised e)
  end.

(** [try: m  except C as e: h e], where [handles] tells the
    exceptions of class [C]; any other exception passes through. *)
Definition try_except {A : Type} (m : Run A) (handles : exn -> bool)
    (h : exn -> Run A) : Run A :=
  match result m with
  | Raised e =>
      if handles e then ((trace m ++ trace (h e))%list, result (h e)) else m
  | Returned _ => m
  end.

(** [isinstance(exc, Exception)] *)
Definition is_Exception (e : exn) : bool :=
  match e with
  | BaseFailure _ => false
  | _ => true
  end.

(** One event without a result. *)
Definition emit (ev : event) : Run unit := ([ev], Returned tt).

(** One call to a collaborator: the event, then what the collaborator
    answered. *)
Definition call {A : Type} (ev : event) (answer : outcome A) : Run A :=
  ([ev], answer).

Definition log (lvl : level) (message : string) : Run unit :=
  emit (Log lvl message).

Declare Scope run_scope.
Delimit Scope run_scope with run.

Notation "x <- m ;; k" := (bind m (fun x => k))
  (at level 100, m at next level, right associativity) : run_scope.
Notation "m ;;; k" := (bind m (fun _ => k))
  (at level 100, right associativity) : run_scope.

(** ** The command-line namespace *)

Record ProgramArgsNamespace : Type := mkArgs {
  input_file_path : Path;
  extended_length : float;
  output_dir : option Path;
  min_duration_multiplier : float;
  fade_length : option float;
  brute_force : bool;
  show_progress_bar : bool;
  format : string;
  interactive : bool
}.

(** The [choices] of [--format]. *)
Definition choices : list string := ["WAV"; "FLAC"; "OGG"; "MP3"; "M4A"].

(** The collaborators of the script: what the host answers to each
    call.  [extend_track_runner] stands for building the export handler
    and running it. *)
Record Collaborators : Type := mkWorld {
  get_platform : string;
  extend_track_runner : LoopExportHandler.t -> outcome Path;
  ffmpeg_run : list string -> outcome unit;
  copy_metadata : Path -> Path -> outcome unit;
  copy_filedate : Path -> Path -> outcome unit;
  unlink : Path -> outcome unit
}.

(** ** [get_args] and [main] *)

Section Script.

Variable w : Collaborators.

Local Open Scope run_scope.

Definition fade_length_arg : string := "--fade-length".
Definition format_arg : string := "-f/--format".

Definition fade_length_message : string :=
  "PyMusicLooper does not support fade_length==0".
Definition format_message : string :=
  "format 'OGG' is not supported on Windows: see https://github.com/arkrow/PyMusicLooper/issues/35".

(** [args.fade_length == 0]; [None == 0] is false. *)
Definition fade_length_is_zero (args : ProgramArgsNamespace) : bool :=
  match fade_length args with
  | Some f => Float.eq_zero f
  | None => false
  end.

(** [get_args], from the namespace [parse_args] filled in. *)
Definition get_args (parsed : ProgramArgsNamespace) : Run ProgramArgsNamespace :=
  let args :=
    match output_dir parsed with
    | None =>
        mkArgs (input_file_path parsed) (extended_length parsed)
               (Some (PathOps.parent (input_file_path parsed)))
               (min_duration_multiplier parsed) (fade_length parsed)
               (brute_force parsed) (show_progress_bar parsed)
               (format parsed) (interactive parsed)
    | Some _ => parsed
    end in
  if fade_length_is_zero args then
    raise (ArgumentError fade_length_arg fade_length_message)
  else if String.eqb (format args) "OGG" && String.eqb (get_platform w) "windows" then
    raise (ArgumentError format_arg format_message)
  else
    (if interactive args then emit (SetEnviron "PML_INTERACTIVE_MODE" "1")
     else ret tt) ;;;
    ret args.

(** [str(args.output_dir)] *)
Definition str_opt (p : option Path) : string :=
  match p with
  | Some q => PathOps.str q
  | None => "None"
  end.

(** [args.fade_length or 0] *)
Definition fade_length_or_0 (x : option float) : pynum :=
  match x with
  | Some f => if Float.truthy f then PFloat f else PInt 0
  | None => PInt 0
  end.

(** The format handed to the export handler. *)
Definition format_ (args : ProgramArgsNamespace) : string :=
  if Str.mem (format args) ["WAV"; "FLAC"; "OGG"; "MP3"] then format args
  else "WAV".

(** The handler [main] builds. *)
Definition loop_export_handler (args : ProgramArgsNamespace) : LoopExportHandler.t :=
  LoopExportHandler.make
    (PathOps.str (input_file_path args))
    (str_opt (output_dir args))
    (min_duration_multiplier args)
    (extended_length args)
    (fade_length_or_0 (fade_length args))
    (match fade_length args with None => true | Some _ => false end)
    (negb (show_progress_bar args))
    (brute_force args)
    (format_ args).

(** [cmd.compile()] of [ffmpeg.input(src).output(str(dst), acodec="aac", map="0:a")] *)
Definition ffmpeg_compile (src dst : Path) : list string :=
  ["ffmpeg"; "-i"; PathOps.str src; "-acodec"; "aac"; "-map"; "0:a"; PathOps.str dst].

(** The message of the [ValueError] of [p.with_suffix(sfx)]: the
    suffix is checked first, then the name. *)
Definition with_suffix_error (p : Path) (sfx : string) : string :=
  if PathOps.valid_suffix sfx
  then "PosixPath('" ++ PathOps.str p ++ "') has an empty name"
  else "Invalid suffix '" ++ sfx ++ "'".

(** [raw_output_path.with_suffix("." + args.format.lower())] *)
Definition with_format_suffix (args : ProgramArgsNamespace) (raw_output_path : Path)
    : Run Path :=
  match PathOps.with_suffix raw_output_path ("." ++ Str.lower (format args)) with
  | Some p => ret p
  | None =>
      raise (ValueError
               (with_suffix_error raw_output_path ("." ++ Str.lower (format args))))
  end.

(** The lines [main] logs. *)
Definition converting_message (raw_output_path : Path) : string :=
  "Converting '" ++ PathOps.str raw_output_path ++ "' to M4A".
Definition renaming_message (raw_output_path output_path : Path) : string :=
  "'" ++ PathOps.str raw_output_path ++ "' -> '" ++ PathOps.str output_path ++ "'".
Definition attempting_message (input_path output_path : Path) : string :=
  "Attempting to copy metadata from '" ++ PathOps.str input_path
  ++ "' to '" ++ PathOps.str output_path ++ "'".
Definition failed_message (exc : exn) : string :=
  "Failed to copy metadata: " ++ exn_repr exc.
Definition copying_message (input_path output_path : Path) : string :=
  "Copying file dates from '" ++ PathOps.str input_path
  ++ "' to '" ++ PathOps.str output_path ++ "'".
Definition deleting_message (raw_output_path : Path) : string :=
  "Deleting '" ++ PathOps.str raw_output_path ++ "'".

(** The block of [main] that yields [output_path]. *)
Definition convert (args : ProgramArgsNamespace) (raw_output_path : Path) : Run Path :=
  if String.eqb (format args) "M4A" then
    log INFO (converting_message raw_output_path) ;;;
    output_path <- with_format_suffix args raw_output_path ;;
    log INFO (renaming_message raw_output_path output_path) ;;;
    let cmd := ffmpeg_compile raw_output_path output_path in
    log INFO (Str.join " " cmd) ;;;
    try_except (call (FfmpegRun cmd) (ffmpeg_run w cmd)) is_Exception
      (fun _exc => log ERROR ("    " ++ Str.join " " cmd) ;;; raise _exc) ;;;
    ret output_path
  else
    ret raw_output_path.

(** The block of [main] that copies the tags and the file dates. *)
Definition propagate (input_path output_path : Path) : Run unit :=
  try_except
    (log INFO (attempting_message input_path output_path) ;;;
     call (CopyMetadata input_path output_path)
          (copy_metadata w input_path output_path))
    is_UnsupportedFormat
    (fun exc => log INFO (failed_message exc)) ;;;
  log INFO (copying_message input_path output_path) ;;;
  call (CopyFiledate input_path output_path)
       (copy_filedate w input_path output_path).

(** The last block of [main]. *)
Definition cleanup (raw_output_path output_path : Path) : Run unit :=
  if negb (PathOps.eqb output_path raw_output_path) then
    log INFO (deleting_message raw_output_path) ;;;
    call (Unlink raw_output_path) (unlink w raw_output_path)
  else
    ret tt.

Definition main (args : ProgramArgsNamespace) : Run unit :=
  let input_path := input_file_path args in
  let handler := loop_export_handler args in
  raw_output_path <- call (ExtendTrack handler) (extend_track_runner w handler) ;;
  output_path <- convert args raw_output_path ;;
  propagate input_path output_path ;;;
  cleanup raw_output_path output_path.

(** The [__main__] block. *)
Definition script (parsed : ProgramArgsNamespace) : Run unit :=
  emit (FilterWarnings "ignore") ;;;
  _args <- get_args parsed ;;
  emit SetupRootLogger ;;;
  main _args.

End Script.

(** ** Vocabulary of the properties *)

(** Among the formats the export handler writes, WAV (PCM) and FLAC
    keep the samples as they are; OGG (Vorbis) and MP3 do not. *)
Definition lossless (fmt : string) : bool := Str.mem fmt ["WAV"; "FLAC"].

(** [raw_output_path.with_suffix(".m4a")], for a path that has a name. *)
Definition m4a_path (raw_output_path : Path) : Path :=
  PathOps.with_name raw_output_path
    (PathOps.replace_suffix (PathOps.name raw_output_path) ".m4a").

(** The outcomes of [copy_metadata] that [main] goes on after:
    success and [UnsupportedFormat]. *)
Definition tag_copy_tolerated (o : outcome unit) : bool :=
  match o with
  | Returned _ => true
  | Raised e => is_UnsupportedFormat e
  end.

(** What [main] logs about the outcome of [copy_metadata]. *)
Definition tag_copy_log (o : outcome unit) : list event :=
  match o with
  | Returned _ => []
  | Raised e => [Log INFO (failed_message e)]
  end.

(** The calls of a trace: its events without the log lines. *)
Definition is_call (ev : event) : bool :=
  match ev with
  | Log _ _ => false
  | _ => true
  end.

Definition calls (t : list event) : list event := filter is_call t.

(** The path [main] delivers for a raw path. *)
Definition delivered (args : ProgramArgsNamespace) (raw_output_path : Path) : Path :=
  if String.eqb (format args) "M4A" then m4a_path raw_output_path
  else raw_output_path.

(** The calls of a run of [main] in which nothing fails, for the raw
    path the export handler returned. *)
Definition pipeline (args : ProgramArgsNamespace) (raw_output_path : Path)
    : list event :=
  (ExtendTrack (loop_export_handler args)
   :: (if String.eqb (format args) "M4A"
       then [FfmpegRun (ffmpeg_compile raw_output_path
                                       (delivered args raw_output_path))]
       else [])
   ++ [CopyMetadata (input_file_path args) (delivered args raw_output_path);
       CopyFiledate (input_file_path args) (delivered args raw_output_path)]
   ++ (if PathOps.eqb (delivered args raw_output_path) raw_output_path
       then []
       else [Unlink raw_output_path]))%list.

(** Sample values for the concrete instances below. *)
Module Samples.

(** [180.0], [0.35] (rounded to a short mantissa), [10.0] and [-2.5] *)
Definition f180 : float := S754_finite false 45 2.
Definition f035 : float := S754_finite false 45875 (-17).
Definition f10 : float := S754_finite false 5 1.
Definition fneg : float := S754_finite true 5 (-1).

Definition song : Path := mkPath "/" ["music"; "song.wav"].
Definition raw_wav : Path := mkPath "/" ["music"; "song-extended.wav"].
Definition raw_mp3 : Path := mkPath "/" ["music"; "song-extended.mp3"].

(** A request: [song.wav -l 180], with the given fade length and format. *)
Definition request (fade : option float) (fmt : string) : ProgramArgsNamespace :=
  mkArgs song f180 None f035 fade false false fmt false.

(** A host on which every collaborator succeeds; the export handler
    writes [raw]. *)
Definition host (platform : string) (raw : Path) : Collaborators :=
  mkWorld platform (fun _ => Returned raw) (fun _ => Returned tt)
          (fun _ _ => Returned tt) (fun _ _ => Returned tt) (fun _ => Returned tt).

(** The same host, on which [copy_metadata] does not know the format. *)
Definition host_without_tags (raw : Path) : Collaborators :=
  mkWorld "linux" (fun _ => Returned raw) (fun _ => Returned tt)
          (fun _ _ => Raised (UnsupportedFormat "UnsupportedFormat('.m4a')"))
          (fun _ _ => Returned tt) (fun _ => Returned tt).

(** The same request once [get_args] has resolved the output directory. *)
Definition resolved (fade : option float) (fmt : string) : ProgramArgsNamespace :=
mkArgs song f180 (Some (mkPath "/" ["music"])) f035 fade false false fmt false.

(** A host on which ffmpeg fails. *)
Definition host_without_ffmpeg (raw : Path) : Collaborators :=
mkWorld "linux" (fun _ => Returned raw)
        (fun _ => Raised (Failure "ffmpeg.Error('ffmpeg', b'', b'')"))
        (fun _ _ => Returned tt) (fun _ _ => Returned tt) (fun _ => Returned tt).

(** A host on which the user interrupts ffmpeg. *)
Definition host_interrupted (raw : Path) : Collaborators :=
mkWorld "linux" (fun _ => Returned raw)
        (fun _ => Raised (BaseFailure "KeyboardInterrupt()"))
        (fun _ _ => Returned tt) (fun _ _ => Returned tt) (fun _ => Returned tt).

(** A host on which the export handler fails. *)
Definition host_without_loop : Collaborators :=
mkWorld "linux" (fun _ => Raised (Failure "LoopNotFoundError()"))
        (fun _ => Returned tt)
        (fun _ _ => Returned tt) (fun _ _ => Returned tt) (fun _ => Returned tt).

(** A host on which [copy_metadata] cannot read the input. *)
Definition host_with_broken_tags (raw : Path) : Collaborators :=
mkWorld "linux" (fun _ => Returned raw) (fun _ => Returned tt)
        (fun _ _ => Raised (Failure "PermissionError(13, 'Permission denied')"))
        (fun _ _ => Returned tt) (fun _ => Returned tt).

End Samples.

(** * Properties *)

(** ** Strings *)

Module StrFacts.

Lemma take_drop (n : nat) (s : string) : Str.take n s ++ Str.drop n s = s.
Proof.
  revert s; induction n as [|n IH]; intros [|c r]; simpl; try reflexivity.
  now rewrite IH.
Qed.

Lemma take_all (s : string) : Str.take (String.length s) s = s.
Proof.
  induction s as [|c r IH]; simpl; [reflexivity | now rewrite IH].
Qed.

Lemma length_drop (n : nat) (s : string) :
  String.length (Str.drop n s) = String.length s - n.
Proof.
  revert s; induction n as [|n IH]; intros [|c r]; simpl; auto.
Qed.

Lemma length_app (s t : string) :
  String.length (s ++ t) = String.length s + String.length t.
Proof.
  induction s as [|c r IH]; simpl; [reflexivity | now rewrite IH].
Qed.

Lemma app_inv_head (s a b : string) : s ++ a = s ++ b -> a = b.
Proof.
  induction s as [|c r IH]; simpl; intros H; [assumption|].
  injection H as H; auto.
Qed.

Lemma app_nil_r (s : string) : s ++ "" = s.
Proof.
  induction s as [|c r IH]; simpl; [reflexivity | now rewrite IH].
Qed.

(** Appending to [s] gives [s] back only when nothing is appended. *)
Lemma app_eq_self (s t : string) : s ++ t = s -> t = "".
Proof.
  intros H. apply (app_inv_head s). now rewrite app_nil_r.
Qed.

Lemma mem_In (x : string) (l : list string) : Str.mem x l = true <-> In x l.
Proof.
  induction l as [|y r IH]; simpl.
  - split; [discriminate | tauto].
  - rewrite orb_true_iff, IH, String.eqb_eq. split; intros [H|H]; auto.
Qed.

End StrFacts.

(** ** Paths *)

Module PathFacts.

Import PathOps.

Lemma list_eqb_eq (l1 l2 : list string) : list_eqb l1 l2 = true <-> l1 = l2.
Proof.
  revert l2; induction l1 as [|x r IH]; intros [|y r2]; simpl;
    try (split; [discriminate | discriminate]); try tauto.
  rewrite andb_true_iff, String.eqb_eq, IH.
  split; [intros [-> ->]; reflexivity | intros H; injection H; auto].
Qed.

(** [==] on paths decides equality. *)
Lemma eqb_eq (p q : Path) : eqb p q = true <-> p = q.
Proof.
  destruct p as [a l], q as [b m]; unfold eqb; simpl.
  rewrite andb_true_iff, String.eqb_eq, list_eqb_eq.
  split; [intros [-> ->]; reflexivity | intros H; injection H; auto].
Qed.

Lemma eqb_neq (p q : Path) : eqb p q = false <-> p <> q.
Proof.
  rewrite <- eqb_eq. destruct (eqb p q); split; congruence.
Qed.

(** A suffix is the tail of the name it was read from. *)
Lemma suffix_of_name_tail (n : string) :
  n = Str.take (String.length n - String.length (suffix_of_name n)) n
      ++ suffix_of_name n.
Proof.
  unfold suffix_of_name.
  destruct (Str.rfind "."%char n) as [i|].
  - destruct ((0 <? i)%nat && (i <? String.length n - 1)%nat) eqn:E.
    + apply andb_true_iff in E as [_ E]. apply Nat.ltb_lt in E.
      rewrite StrFacts.length_drop.
      replace (String.length n - (String.length n - i)) with i by lia.
      symmetry; apply StrFacts.take_drop.
    + simpl. now rewrite Nat.sub_0_r, StrFacts.take_all, StrFacts.app_nil_r.
  - simpl. now rewrite Nat.sub_0_r, StrFacts.take_all, StrFacts.app_nil_r.
Qed.

(** Replacing the suffix leaves the name alone exactly when the new
    suffix is the old one. *)
Lemma replace_suffix_same (n sfx : string) :
  replace_suffix n sfx = n <-> suffix_of_name n = sfx.
Proof.
  unfold replace_suffix.
  destruct (suffix_of_name n) as [|c old] eqn:E.
  - split; intros H.
    + symmetry; now apply (StrFacts.app_eq_self n).
    + subst sfx. apply StrFacts.app_nil_r.
  - pose proof (suffix_of_name_tail n) as T. rewrite E in T.
    split; intros H.
    + rewrite T in H at 3. symmetry. now apply StrFacts.app_inv_head in H.
    + subst sfx. now symmetry.
Qed.

Lemma name_nonempty_parts (p : Path) : name p <> "" -> parts p <> [].
Proof.
  unfold name. destruct (parts p); [intros H; now elim H | discriminate].
Qed.

Lemma with_name_name (p : Path) : parts p <> [] -> with_name p (name p) = p.
Proof.
  intros H. destruct p as [a l]; unfold with_name, name; simpl in *.
  now rewrite <- app_removelast_last.
Qed.

Lemma with_name_inj (p : Path) (n m : string) :
  with_name p n = with_name p m -> n = m.
Proof.
  unfold with_name. intros H. injection H as H.
  apply app_inv_head in H. now injection H.
Qed.

(** [with_suffix] gives the path itself back exactly when the path
    already carries that suffix. *)
Lemma with_suffix_same (p q : Path) (sfx : string) :
  with_suffix p sfx = Some q -> (q = p <-> suffix p = sfx).
Proof.
  unfold with_suffix, suffix.
  destruct (negb (valid_suffix sfx)); [discriminate|].
  destruct (String.eqb (name p) "") eqn:E; [discriminate|].
  apply String.eqb_neq in E. intros H; injection H as <-.
  pose proof (with_name_name p (name_nonempty_parts p E)) as W.
  rewrite <- replace_suffix_same. split; intros H.
  - apply (with_name_inj p). now rewrite W.
  - now rewrite H.
Qed.

(** A path with a suffix has a name. *)
Lemma suffix_name_nonempty (p : Path) : suffix p <> "" -> name p <> "".
Proof.
  unfold suffix. intros H E. rewrite E in H. now apply H.
Qed.

Lemma with_suffix_defined (p : Path) (sfx : string) :
  valid_suffix sfx = true -> name p <> "" ->
  with_suffix p sfx = Some (with_name p (replace_suffix (name p) sfx)).
Proof.
  intros V N. unfold with_suffix. rewrite V; simpl.
  apply String.eqb_neq in N. now rewrite N.
Qed.

End PathFacts.

(** ** Argument resolution *)

(** [get_args] changes nothing but the output directory. *)
Lemma get_args_fields (w : Collaborators) (parsed args : ProgramArgsNamespace) :
  result (get_args w parsed) = Returned args ->
  input_file_path args = input_file_path parsed
  /\ extended_length args = extended_length parsed
  /\ min_duration_multiplier args = min_duration_multiplier parsed
  /\ fade_length args = fade_length parsed
  /\ brute_force args = brute_force parsed
  /\ show_progress_bar args = show_progress_bar parsed
  /\ format args = format parsed
  /\ interactive args = interactive parsed.
Proof.
  unfold get_args.
  destruct (output_dir parsed) eqn:Eo; simpl.
  - destruct (fade_length_is_zero parsed); [discriminate|].
    destruct (_ && _); [discriminate|].
    destruct (interactive parsed) eqn:Ei; simpl; intros H; injection H as <-;
      repeat split; auto.
  - unfold fade_length_is_zero; simpl.
    destruct (match fade_length parsed with Some f => Float.eq_zero f | None => false end);
      [discriminate|].
    destruct (_ && _); [discriminate|].
    destruct (interactive parsed) eqn:Ei; simpl; intros H; injection H as <-;
      simpl; repeat split; auto.
Qed.

(** A namespace that passed [get_args] has no zero fade length. *)
Lemma get_args_fade_nonzero (w : Collaborators) (parsed args : ProgramArgsNamespace) :
  result (get_args w parsed) = Returned args ->
  fade_length_is_zero args = false.
Proof.
  intros H. pose proof (get_args_fields w parsed args H) as (_ & _ & _ & F & _).
  unfold fade_length_is_zero. rewrite F.
  revert H. unfold get_args.
  destruct (output_dir parsed); unfold fade_length_is_zero; simpl;
    destruct (fade_length parsed) as [f|]; try reflexivity;
    destruct (Float.eq_zero f); try reflexivity; discriminate.
Qed.

(** When does [get_args] raise the fade-length error. *)
Lemma get_args_fade_error_iff (w : Collaborators) (parsed : ProgramArgsNamespace) :
  (exists m, result (get_args w parsed) = Raised (ArgumentError fade_length_arg m))
  <-> fade_length_is_zero parsed = true.
Proof.
  unfold get_args, fade_length_is_zero.
  destruct (output_dir parsed); simpl;
    destruct (match fade_length parsed with Some f => Float.eq_zero f | None => false end);
    simpl.
  1, 3: split; [reflexivity | intros _; now exists fade_length_message].
  all: split; [|discriminate]; intros [m H]; exfalso; revert H;
    destruct (_ && _); simpl; try discriminate;
    destruct (interactive parsed); discriminate.
Qed.

(** C4: a fade length that equals zero makes [get_args] raise the
    fade-length [ArgumentError] without any effect; the script stops
    there: the export handler is never run, ffmpeg neither, so that
    no file is written. *)
Theorem zero_fade_length_rejected (w : Collaborators)
    (parsed : ProgramArgsNamespace) (f : float)
    (Hfade : fade_length parsed = Some f) (Hzero : Float.eq_zero f = true) :
  get_args w parsed = raise (ArgumentError fade_length_arg fade_length_message)
  /\ result (script w parsed) = Raised (ArgumentError fade_length_arg fade_length_message)
  /\ trace (script w parsed) = [FilterWarnings "ignore"]
  /\ (forall h, ~ In (ExtendTrack h) (trace (script w parsed)))
  /\ (forall cmd, ~ In (FfmpegRun cmd) (trace (script w parsed))).
Proof.
  assert (G : get_args w parsed
              = raise (ArgumentError fade_length_arg fade_length_message)).
  { unfold get_args, fade_length_is_zero.
    destruct (output_dir parsed); simpl; now rewrite Hfade, Hzero. }
  assert (T : script w parsed
              = ([FilterWarnings "ignore"],
                 Raised (ArgumentError fade_length_arg fade_length_message))).
  { unfold script. now rewrite G. }
  rewrite T; simpl. repeat split; auto.
  - intros h [H|[]]; discriminate.
  - intros cmd [H|[]]; discriminate.
Qed.

Lemma zero_fade_length_rejected_witness :
  let parsed := Samples.request (Some (S754_zero true)) "FLAC" in
  let w := Samples.host "linux" Samples.raw_wav in
  result (script w parsed) = Raised (ArgumentError fade_length_arg fade_length_message)
  /\ trace (script w parsed) = [FilterWarnings "ignore"].
Proof.
  pose proof (zero_fade_length_rejected
                (Samples.host "linux" Samples.raw_wav)
                (Samples.request (Some (S754_zero true)) "FLAC")
                (S754_zero true) eq_refl eq_refl) as (_ & R & T & _).
  split; [exact R | exact T].
Defined.

(** C5: [get_args] tells the hosts that cannot encode OGG by
    [get_platform() == "windows"].  On such a host a request for OGG
    makes [get_args] raise an [ArgumentError] (the one of [--format],
    unless the fade length is zero as well and that error comes
    first), and the script stops before the export handler is run. *)
Theorem ogg_on_windows_rejected (w : Collaborators) (parsed : ProgramArgsNamespace)
    (Hfmt : format parsed = "OGG") (Hplat : get_platform w = "windows") :
  (exists a m, get_args w parsed = raise (ArgumentError a m))
  /\ (fade_length_is_zero parsed = false ->
      get_args w parsed = raise (ArgumentError format_arg format_message))
  /\ trace (script w parsed) = [FilterWarnings "ignore"]
  /\ (exists e, result (script w parsed) = Raised e)
  /\ (forall h, ~ In (ExtendTrack h) (trace (script w parsed))).
Proof.
  assert (G : get_args w parsed
              = raise (ArgumentError
                         (if fade_length_is_zero parsed then fade_length_arg
                          else format_arg)
                         (if fade_length_is_zero parsed then fade_length_message
                          else format_message))).
  { unfold get_args, fade_length_is_zero.
    destruct (output_dir parsed); simpl;
      destruct (match fade_length parsed with
                | Some f => Float.eq_zero f | None => false end);
      try reflexivity; now rewrite Hfmt, Hplat. }
  assert (T : trace (script w parsed) = [FilterWarnings "ignore"])
    by (unfold script; now rewrite G).
  split; [eauto|]. split; [intros Z; now rewrite Z in G|].
  split; [exact T|]. split.
  - eexists. unfold script. now rewrite G.
  - rewrite T. intros h [H|[]]; discriminate.
Qed.

Lemma ogg_on_windows_rejected_witness :
  let parsed := Samples.request None "OGG" in
  let w := Samples.host "windows" Samples.raw_wav in
  get_args w parsed = raise (ArgumentError format_arg format_message)
  /\ trace (script w parsed) = [FilterWarnings "ignore"].
Proof.
  pose proof (ogg_on_windows_rejected
                (Samples.host "windows" Samples.raw_wav)
                (Samples.request None "OGG") eq_refl eq_refl) as (_ & G & T & _).
  split; [exact (G eq_refl) | exact T].
Defined.

(** C8: the namespace [get_args] returns has the parent of the input
    path as its output directory when the caller gave none, and the
    caller's directory otherwise. *)
Theorem output_dir_defaults_to_parent (w : Collaborators)
    (parsed args : ProgramArgsNamespace)
    (Hok : result (get_args w parsed) = Returned args) :
  (output_dir parsed = None ->
   output_dir args = Some (PathOps.parent (input_file_path parsed)))
  /\ (forall d, output_dir parsed = Some d -> output_dir args = Some d).
Proof.
  revert Hok. unfold get_args.
  destruct (output_dir parsed) as [d0|] eqn:Eo; simpl.
  - destruct (fade_length_is_zero parsed); [discriminate|].
    destruct (_ && _); [discriminate|].
    destruct (interactive parsed); simpl; intros H; injection H as <-;
      (split; [discriminate | intros d [= <-]; exact Eo]).
  - unfold fade_length_is_zero; simpl.
    destruct (match fade_length parsed with
              | Some f => Float.eq_zero f | None => false end); [discriminate|].
    destruct (_ && _); [discriminate|].
    destruct (interactive parsed); simpl; intros H; injection H as <-; simpl;
      (split; [reflexivity | discriminate]).
Qed.

Lemma output_dir_defaults_to_parent_witness :
  exists args,
    result (get_args (Samples.host "linux" Samples.raw_wav)
                     (Samples.request (Some Samples.f10) "M4A")) = Returned args
    /\ output_dir args = Some (mkPath "/" ["music"]).
Proof.
  eexists. split; [reflexivity|].
  exact (proj1 (output_dir_defaults_to_parent
                  (Samples.host "linux" Samples.raw_wav)
                  (Samples.request (Some Samples.f10) "M4A") _ eq_refl) eq_refl).
Defined.

(** A negative float is not zero. *)
Lemma lt_zero_not_eq_zero (f : float) :
  Float.lt_zero f = true -> Float.eq_zero f = false.
Proof.
  unfold Float.lt_zero, Float.eq_zero, SFltb, SFeqb.
  destruct (SFcompare f Float.zero) as [[| |]|]; congruence.
Qed.

(** [get_args] succeeds unless the fade length is zero or OGG is
    asked for on Windows. *)
Lemma get_args_succeeds (w : Collaborators) (parsed : ProgramArgsNamespace) :
  fade_length_is_zero parsed = false ->
  String.eqb (format parsed) "OGG" && String.eqb (get_platform w) "windows" = false ->
  exists args, result (get_args w parsed) = Returned args.
Proof.
  intros Z O. unfold get_args.
  destruct (output_dir parsed); simpl.
  - rewrite Z, O. destruct (interactive parsed); simpl; eauto.
  - unfold fade_length_is_zero in *; simpl. rewrite Z, O.
    destruct (interactive parsed); simpl; eauto.
Qed.

(** C10: a negative fade length is not refused: [get_args] raises
    no fade-length error for it and returns a namespace whenever the
    format check lets it; the handler built from that namespace has
    [disable_fade_out] false and the negative value itself as its fade
    length.  The fade-length error is raised for zero and nothing
    else. *)
Theorem negative_fade_length_accepted (w : Collaborators)
    (parsed : ProgramArgsNamespace) (f : float)
    (Hfade : fade_length parsed = Some f) (Hneg : Float.lt_zero f = true) :
  (forall m, result (get_args w parsed) <> Raised (ArgumentError fade_length_arg m))
  /\ (String.eqb (format parsed) "OGG" && String.eqb (get_platform w) "windows" = false ->
      exists args, result (get_args w parsed) = Returned args)
  /\ (forall args, result (get_args w parsed) = Returned args ->
      LoopExportHandler.disable_fade_out (loop_export_handler args) = false
      /\ LoopExportHandler.fade_length (loop_export_handler args) = PFloat f)
  /\ (forall parsed',
        (exists m, result (get_args w parsed')
                   = Raised (ArgumentError fade_length_arg m))
        <-> (exists z, fade_length parsed' = Some z /\ Float.eq_zero z = true)).
Proof.
  pose proof (lt_zero_not_eq_zero f Hneg) as Hnz.
  assert (Z : fade_length_is_zero parsed = false)
    by (unfold fade_length_is_zero; now rewrite Hfade).
  split; [|split; [|split]].
  - intros m H.
    assert (E : fade_length_is_zero parsed = true)
      by (apply (get_args_fade_error_iff w); eauto).
    congruence.
  - now apply get_args_succeeds.
  - intros args H.
    pose proof (get_args_fields w parsed args H) as (_ & _ & _ & F & _).
    unfold loop_export_handler, fade_length_or_0, Float.truthy; simpl.
    now rewrite F, Hfade, Hnz.
  - intros parsed'. rewrite get_args_fade_error_iff. unfold fade_length_is_zero.
    destruct (fade_length parsed') as [z|].
    + split; [intros H; eauto | intros (z' & [= <-] & H); exact H].
    + split; [discriminate | intros (z' & H & _); discriminate].
Qed.

Lemma negative_fade_length_accepted_witness :
  let w := Samples.host "linux" Samples.raw_wav in
  let parsed := Samples.request (Some Samples.fneg) "WAV" in
  exists args,
    result (get_args w parsed) = Returned args
    /\ LoopExportHandler.disable_fade_out (loop_export_handler args) = false
    /\ LoopExportHandler.fade_length (loop_export_handler args) = PFloat Samples.fneg.
Proof.
  pose proof (negative_fade_length_accepted
                (Samples.host "linux" Samples.raw_wav)
                (Samples.request (Some Samples.fneg) "WAV")
                Samples.fneg eq_refl eq_refl) as (_ & _ & H & _).
  eexists. split; [reflexivity|]. apply H. reflexivity.
Defined.

(** ** Running computations *)

(** Case analysis on the answers a run depends on. *)
Ltac run_step w :=
  match goal with
  | |- context [extend_track_runner w ?h] =>
      destruct (extend_track_runner w h) as [?raw|?e] eqn:?
  | |- context [PathOps.with_suffix ?p ?s] =>
      destruct (PathOps.with_suffix p s) as [?out|] eqn:?
  | |- context [ffmpeg_run w ?c] =>
      destruct (ffmpeg_run w c) as [[]|?e] eqn:?
  | |- context [is_Exception ?e] =>
      destruct (is_Exception e) eqn:?
  | |- context [copy_metadata w ?a ?b] =>
      destruct (copy_metadata w a b) as [[]|?e] eqn:?
  | |- context [is_UnsupportedFormat ?e] =>
      destruct (is_UnsupportedFormat e) eqn:?
  | |- context [copy_filedate w ?a ?b] =>
      destruct (copy_filedate w a b) as [[]|?e] eqn:?
  | |- context [PathOps.eqb ?a ?b] =>
      destruct (PathOps.eqb a b) eqn:?
  | |- context [unlink w ?a] =>
      destruct (unlink w a) as [[]|?e] eqn:?
  end.

Ltac run_unfold :=
  unfold main, convert, propagate, cleanup, with_format_suffix,
    bind, try_except, call, log, emit, ret, raise, trace, result;
  cbn [fst snd app negb].

Ltac run_cases w :=
  run_unfold; repeat (run_step w; cbn [fst snd app negb]).

(** ** The call to the export handler *)

(** The first thing [main] does is to run the handler it built. *)
Lemma main_runs_handler (w : Collaborators) (args : ProgramArgsNamespace) :
  exists rest,
    trace (main w args) = ExtendTrack (loop_export_handler args) :: rest.
Proof.
  unfold main, bind, call, trace, result; cbn [fst snd].
  destruct (extend_track_runner w (loop_export_handler args));
    cbn [fst snd app]; eauto.
Qed.

(** Nothing else runs a handler. *)
Lemma main_runs_one_handler (w : Collaborators) (args : ProgramArgsNamespace)
    (h : LoopExportHandler.t) :
  In (ExtendTrack h) (trace (main w args)) -> h = loop_export_handler args.
Proof.
  run_unfold. destruct (String.eqb (format args) "M4A"); cbn [fst snd app].
  all: repeat (run_step w; cbn [fst snd app negb]).
  all: cbn [In]; intuition (try discriminate); congruence.
Qed.

(** C9: for a request for M4A the export handler is run with the
    format WAV; for a request for WAV, FLAC, OGG or MP3 it is run with
    the requested format; and the handler [main] runs is the one
    built from the request. *)
Theorem handler_format_of_request (w : Collaborators) (args : ProgramArgsNamespace) :
  (format args = "M4A" ->
   LoopExportHandler.format (loop_export_handler args) = "WAV")
  /\ (forall fmt, In fmt ["WAV"; "FLAC"; "OGG"; "MP3"] -> format args = fmt ->
      LoopExportHandler.format (loop_export_handler args) = fmt)
  /\ (exists rest,
        trace (main w args) = ExtendTrack (loop_export_handler args) :: rest)
  /\ (forall h, In (ExtendTrack h) (trace (main w args)) ->
      h = loop_export_handler args).
Proof.
  split; [|split; [|split]].
  - intros E. unfold loop_export_handler, format_;
      cbn [LoopExportHandler.format]. now rewrite E.
  - intros fmt I E. unfold loop_export_handler, format_;
      cbn [LoopExportHandler.format]. rewrite E.
    apply StrFacts.mem_In in I. now rewrite I.
  - apply main_runs_handler.
  - apply main_runs_one_handler.
Qed.

(** C6: for a namespace that passed [get_args], the handler is built
    with [disable_fade_out] true exactly when no fade length was given,
    with the fade length 0 in that case and the given one otherwise,
    with [batch_mode] the negation of the progress-bar flag, and with
    the brute-force flag and the minimum-duration multiplier as they
    were given; this handler is what [main] runs first. *)
Theorem handler_arguments_of_request (w : Collaborators)
    (parsed args : ProgramArgsNamespace)
    (Hok : result (get_args w parsed) = Returned args) :
  (LoopExportHandler.disable_fade_out (loop_export_handler args) = true
   <-> fade_length parsed = None)
  /\ (fade_length parsed = None ->
      LoopExportHandler.fade_length (loop_export_handler args) = PInt 0)
  /\ (forall f, fade_length parsed = Some f ->
      LoopExportHandler.fade_length (loop_export_handler args) = PFloat f)
  /\ LoopExportHandler.batch_mode (loop_export_handler args)
     = negb (show_progress_bar parsed)
  /\ LoopExportHandler.brute_force (loop_export_handler args) = brute_force parsed
  /\ LoopExportHandler.min_duration_multiplier (loop_export_handler args)
     = min_duration_multiplier parsed
  /\ (exists rest,
        trace (main w args) = ExtendTrack (loop_export_handler args) :: rest).
Proof.
  pose proof (get_args_fields w parsed args Hok) as (_ & _ & M & F & B & P & _).
  pose proof (get_args_fade_nonzero w parsed args Hok) as Z.
  unfold fade_length_is_zero in Z. rewrite F in Z.
  repeat split; try apply main_runs_handler;
    unfold loop_export_handler, fade_length_or_0, Float.truthy; simpl;
    rewrite ?F, ?M, ?B, ?P; try reflexivity.
  - destruct (fade_length parsed); [discriminate | reflexivity].
  - intros ->; reflexivity.
  - intros ->; reflexivity.
  - intros f E. rewrite E in *. now rewrite Z.
Qed.

Lemma handler_arguments_of_request_witness :
  exists args,
    result (get_args (Samples.host "linux" Samples.raw_wav)
                     (Samples.request (Some Samples.f10) "M4A")) = Returned args
    /\ LoopExportHandler.fade_length (loop_export_handler args) = PFloat Samples.f10
    /\ LoopExportHandler.batch_mode (loop_export_handler args) = true.
Proof.
  eexists. split; [reflexivity|].
  pose proof (handler_arguments_of_request
                (Samples.host "linux" Samples.raw_wav)
                (Samples.request (Some Samples.f10) "M4A") _ eq_refl)
    as (_ & _ & F & B & _).
  split; [exact (F _ eq_refl) | exact B].
Defined.

(** C2, as it is worded: every namespace that passed [get_args] with
    one of the [choices] as its format would hand a lossless format to
    the export handler.  A request for MP3 hands MP3 to it. *)
Lemma handler_format_not_always_lossless :
  ~ (forall (w : Collaborators) (parsed args : ProgramArgsNamespace),
       result (get_args w parsed) = Returned args ->
       In (format args) choices ->
       lossless (LoopExportHandler.format (loop_export_handler args)) = true).
Proof.
  intros H.
  specialize (H (Samples.host "linux" Samples.raw_mp3)
                (Samples.request None "MP3") _ eq_refl).
  cbv in H. specialize (H (or_intror (or_intror (or_intror (or_introl eq_refl))))).
  discriminate.
Qed.

(** C2, amended: among the [choices], the format handed to the export
    handler is lossless for a request for M4A (it is WAV then), for WAV
    and for FLAC (it is the requested format then), and it is the
    requested lossy format itself for OGG and for MP3. *)
Theorem handler_format_lossless_unless_lossy_requested
    (args : ProgramArgsNamespace) (Hfmt : In (format args) choices) :
  (In (format args) ["M4A"; "WAV"; "FLAC"] ->
   lossless (LoopExportHandler.format (loop_export_handler args)) = true)
  /\ (format args = "M4A" ->
      LoopExportHandler.format (loop_export_handler args) = "WAV")
  /\ (In (format args) ["WAV"; "FLAC"] ->
      LoopExportHandler.format (loop_export_handler args) = format args)
  /\ (In (format args) ["OGG"; "MP3"] ->
      LoopExportHandler.format (loop_export_handler args) = format args
      /\ lossless (LoopExportHandler.format (loop_export_handler args)) = false)
  /\ (lossless (LoopExportHandler.format (loop_export_handler args)) = true
      <-> In (format args) ["M4A"; "WAV"; "FLAC"]).
Proof.
  unfold loop_export_handler, format_, choices in *; simpl in Hfmt |- *.
  destruct Hfmt as [<-|[<-|[<-|[<-|[<-|[]]]]]]; cbv;
    intuition (try discriminate; try congruence).
Qed.

Lemma handler_format_lossless_unless_lossy_requested_witness :
  LoopExportHandler.format (loop_export_handler (Samples.request None "M4A")) = "WAV"
  /\ LoopExportHandler.format (loop_export_handler (Samples.request None "FLAC"))
     = "FLAC"
  /\ lossless (LoopExportHandler.format
                 (loop_export_handler (Samples.request None "M4A"))) = true.
Proof.
  assert (M : In (format (Samples.request None "M4A")) choices) by (cbv; tauto).
  assert (F : In (format (Samples.request None "FLAC")) choices) by (cbv; tauto).
  pose proof (handler_format_lossless_unless_lossy_requested _ M) as (L & W & _).
  pose proof (handler_format_lossless_unless_lossy_requested _ F) as (_ & _ & K & _).
  split; [exact (W eq_refl)|]. split.
  - apply K. cbv. tauto.
  - apply L. cbv. tauto.
Defined.

Lemma bind_returned {A B : Type} (m : Run A) (k : A -> Run B) (a : A) :
  result m = Returned a ->
  bind m k = ((trace m ++ trace (k a))%list, result (k a)).
Proof.
  intros H. unfold bind. now rewrite H.
Qed.

Lemma bind_raised {A B : Type} (m : Run A) (k : A -> Run B) (e : exn) :
  result m = Raised e -> bind m k = (trace m, Raised e).
Proof.
  intros H. unfold bind. now rewrite H.
Qed.

(** ** The blocks of [main] *)

Lemma convert_other (w : Collaborators) (args : ProgramArgsNamespace) (raw : Path) :
  format args <> "M4A" -> convert w args raw = ret raw.
Proof.
  intros H. apply String.eqb_neq in H. unfold convert. now rewrite H.
Qed.

Lemma with_format_suffix_m4a (args : ProgramArgsNamespace) (raw : Path) :
  format args = "M4A" -> PathOps.name raw <> "" ->
  PathOps.with_suffix raw ".m4a" = Some (m4a_path raw)
  /\ with_format_suffix args raw = ret (m4a_path raw).
Proof.
  intros F N.
  assert (W : PathOps.with_suffix raw ".m4a" = Some (m4a_path raw))
    by (now apply PathFacts.with_suffix_defined).
  split; [exact W|].
  unfold with_format_suffix. rewrite F.
  change ("." ++ Str.lower "M4A") with ".m4a". now rewrite W.
Qed.

(** The transcoding block when ffmpeg succeeds. *)
Lemma convert_m4a (w : Collaborators) (args : ProgramArgsNamespace) (raw : Path) :
  format args = "M4A" -> PathOps.name raw <> "" ->
  ffmpeg_run w (ffmpeg_compile raw (m4a_path raw)) = Returned tt ->
  convert w args raw
  = ([Log INFO (converting_message raw);
      Log INFO (renaming_message raw (m4a_path raw));
      Log INFO (Str.join " " (ffmpeg_compile raw (m4a_path raw)));
      FfmpegRun (ffmpeg_compile raw (m4a_path raw))],
     Returned (m4a_path raw)).
Proof.
  intros F N E.
  destruct (with_format_suffix_m4a args raw F N) as [_ W].
  unfold convert. rewrite F, W. cbn [String.eqb Ascii.eqb Bool.eqb].
  unfold bind, try_except, call, log, emit, ret, trace, result; cbn [fst snd].
  rewrite E. reflexivity.
Qed.

(** The last block removes the raw file exactly when the output
    path is another one. *)
Lemma cleanup_same (w : Collaborators) (raw : Path) : cleanup w raw raw = ret tt.
Proof.
  unfold cleanup. now rewrite (proj2 (PathFacts.eqb_eq raw raw) eq_refl).
Qed.

Lemma cleanup_differs (w : Collaborators) (raw out : Path) :
  out <> raw ->
  cleanup w raw out = ([Log INFO (deleting_message raw); Unlink raw], unlink w raw).
Proof.
  intros H. apply PathFacts.eqb_neq in H. unfold cleanup. rewrite H.
  unfold bind, log, emit, call, trace, result; cbn [fst snd negb].
  now destruct (unlink w raw).
Qed.

Lemma unlink_in_cleanup (w : Collaborators) (raw out : Path) :
  In (Unlink raw) (trace (cleanup w raw out)) <-> out <> raw.
Proof.
  split.
  - intros H E. subst out. rewrite cleanup_same in H. exact H.
  - intros H. rewrite (cleanup_differs w raw out H). simpl. auto.
Qed.

(** The tag and date block after a tag copy that succeeded or did not
    know the format: the failure is logged, the dates are copied, and
    the block ends as the date copy does. *)
Lemma propagate_tolerated (w : Collaborators) (input output : Path) :
  tag_copy_tolerated (copy_metadata w input output) = true ->
  propagate w input output
  = ((Log INFO (attempting_message input output)
      :: CopyMetadata input output
      :: tag_copy_log (copy_metadata w input output)
      ++ [Log INFO (copying_message input output); CopyFiledate input output])%list,
     copy_filedate w input output).
Proof.
  unfold propagate, bind, try_except, call, log, emit, trace, result;
    cbn [fst snd].
  destruct (copy_metadata w input output) as [[]|e]; cbn [fst snd app].
  - intros _. now destruct (copy_filedate w input output).
  - cbn [tag_copy_tolerated tag_copy_log]. intros ->. cbn [fst snd app].
    now destruct (copy_filedate w input output).
Qed.

(** Any other exception of the tag copy ends the block. *)
Lemma propagate_fatal (w : Collaborators) (input output : Path) (e : exn) :
  copy_metadata w input output = Raised e -> is_UnsupportedFormat e = false ->
  propagate w input output
  = ([Log INFO (attempting_message input output); CopyMetadata input output],
     Raised e).
Proof.
  intros M U.
  unfold propagate, bind, try_except, call, log, emit, trace, result;
    cbn [fst snd].
  rewrite M; cbn [fst snd app]. rewrite U. reflexivity.
Qed.

(** [main] from the tag copy on, once the handler and the conversion
    have returned. *)
Lemma main_after_convert (w : Collaborators) (args : ProgramArgsNamespace)
    (raw out : Path) :
  extend_track_runner w (loop_export_handler args) = Returned raw ->
  result (convert w args raw) = Returned out ->
  tag_copy_tolerated (copy_metadata w (input_file_path args) out) = true ->
  trace (main w args)
  = (ExtendTrack (loop_export_handler args)
     :: trace (convert w args raw)
     ++ Log INFO (attempting_message (input_file_path args) out)
     :: CopyMetadata (input_file_path args) out
     :: tag_copy_log (copy_metadata w (input_file_path args) out)
     ++ Log INFO (copying_message (input_file_path args) out)
     :: CopyFiledate (input_file_path args) out
     :: match copy_filedate w (input_file_path args) out with
        | Returned _ => trace (cleanup w raw out)
        | Raised _ => []
        end)%list
  /\ result (main w args)
     = match copy_filedate w (input_file_path args) out with
       | Returned _ => result (cleanup w raw out)
       | Raised e => Raised e
       end.
Proof.
  intros R C T.
  unfold main. cbv zeta.
  rewrite (bind_returned (call _ _) _ raw) by exact R.
  rewrite (bind_returned (convert w args raw) _ out C).
  pose proof (propagate_tolerated w _ _ T) as P.
  destruct (copy_filedate w (input_file_path args) out) as [[]|e] eqn:D.
  - rewrite (bind_returned (propagate w _ _) _ tt) by (now rewrite P).
    rewrite P. cbn [trace result fst snd app].
    split; [|reflexivity]. unfold call; cbn [trace fst app].
    now rewrite <- ?app_assoc, ?app_nil_r.
  - rewrite (bind_raised (propagate w _ _) _ e) by (now rewrite P).
    rewrite P. cbn [trace result fst snd app].
    split; [|reflexivity]. unfold call; cbn [trace fst app].
    now rewrite <- ?app_assoc, ?app_nil_r.
Qed.

(** The conversion block removes nothing. *)
Lemma convert_no_unlink (w : Collaborators) (args : ProgramArgsNamespace)
    (raw p : Path) :
  ~ In (Unlink p) (trace (convert w args raw)).
Proof.
  run_unfold. destruct (String.eqb (format args) "M4A"); cbn [fst snd app].
  all: repeat (run_step w; cbn [fst snd app negb]).
  all: cbn [In]; intuition discriminate.
Qed.

Lemma tag_copy_log_no_unlink (o : outcome unit) (p : Path) :
  ~ In (Unlink p) (tag_copy_log o).
Proof.
  destruct o; simpl; intuition discriminate.
Qed.

(** Once the dates are copied, the raw file is removed exactly when
    the output path is another path. *)
Lemma raw_deleted_iff_paths_differ (w : Collaborators)
    (args : ProgramArgsNamespace) (raw out : Path) :
  extend_track_runner w (loop_export_handler args) = Returned raw ->
  result (convert w args raw) = Returned out ->
  tag_copy_tolerated (copy_metadata w (input_file_path args) out) = true ->
  copy_filedate w (input_file_path args) out = Returned tt ->
  (In (Unlink raw) (trace (main w args)) <-> out <> raw).
Proof.
  intros R C T D.
  destruct (main_after_convert w args raw out R C T) as [E _].
  rewrite E, D, <- unlink_in_cleanup. split.
  - intros [H|H]; [discriminate|].
    apply in_app_or in H as [H|H]; [now apply convert_no_unlink in H|].
    destruct H as [H|[H|H]]; try discriminate.
    apply in_app_or in H as [H|H]; [now apply tag_copy_log_no_unlink in H|].
    destruct H as [H|[H|H]]; try discriminate. exact H.
  - intros H. right. apply in_or_app. right. right. right.
    apply in_or_app. right. right. right. exact H.
Qed.

(** A failure of the export handler ends [main]. *)
Lemma main_handler_raised (w : Collaborators) (args : ProgramArgsNamespace)
    (e : exn) :
  extend_track_runner w (loop_export_handler args) = Raised e ->
  main w args = ([ExtendTrack (loop_export_handler args)], Raised e).
Proof.
  intros R. unfold main; cbv zeta.
  now rewrite (bind_raised (call _ _) _ e) by exact R.
Qed.

(** [main] for a format that needs no conversion. *)
Lemma main_other_format (w : Collaborators) (args : ProgramArgsNamespace)
    (raw : Path) :
  format args <> "M4A" ->
  extend_track_runner w (loop_export_handler args) = Returned raw ->
  main w args
  = (ExtendTrack (loop_export_handler args)
     :: trace (propagate w (input_file_path args) raw),
     result (propagate w (input_file_path args) raw)).
Proof.
  intros F R. unfold main; cbv zeta.
  rewrite (bind_returned (call _ _) _ raw) by exact R.
  rewrite (bind_returned (convert w args raw) _ raw)
    by (now rewrite convert_other).
  rewrite (convert_other w args raw F).
  unfold bind. rewrite cleanup_same.
  unfold call, ret; cbn [trace result fst snd app].
  destruct (result (propagate w (input_file_path args) raw)) as [[]|e];
    cbn [trace result fst snd]; now rewrite ?app_nil_r.
Qed.

(** The events of the tag and date block. *)
Lemma propagate_events (w : Collaborators) (input output : Path) (ev : event) :
  In ev (trace (propagate w input output)) ->
  (exists lvl message, ev = Log lvl message)
  \/ ev = CopyMetadata input output
  \/ ev = CopyFiledate input output.
Proof.
  run_unfold. repeat (run_step w; cbn [fst snd app negb]).
  all: cbn [In]; intuition (subst; eauto).
Qed.

(** ** The pipeline *)

(** C7: for a format other than M4A the output path is the raw path:
    the conversion block returns it without an event, [main] never
    runs ffmpeg and removes no file, and the tags and dates are copied
    onto the path the export handler returned. *)
Theorem other_formats_keep_raw_path (w : Collaborators)
    (args : ProgramArgsNamespace) (Hfmt : format args <> "M4A") :
  (forall raw, convert w args raw = ret raw)
  /\ (forall cmd, ~ In (FfmpegRun cmd) (trace (main w args)))
  /\ (forall p, ~ In (Unlink p) (trace (main w args)))
  /\ (forall src dst,
        In (CopyMetadata src dst) (trace (main w args))
        \/ In (CopyFiledate src dst) (trace (main w args)) ->
        src = input_file_path args
        /\ extend_track_runner w (loop_export_handler args) = Returned dst).
Proof.
  split; [intros raw; now apply convert_other|].
  destruct (extend_track_runner w (loop_export_handler args)) as [raw|e] eqn:R.
  - rewrite (main_other_format w args raw Hfmt R). cbn [trace fst].
    pose proof (propagate_events w (input_file_path args) raw) as P.
    repeat split.
    + intros cmd [H|H]; [discriminate|].
      apply P in H as [(l & m & H)|[H|H]]; discriminate.
    + intros p [H|H]; [discriminate|].
      apply P in H as [(l & m & H)|[H|H]]; discriminate.
    + destruct H as [[H|H]|[H|H]]; try discriminate;
        apply P in H as [(l & m & H)|[H|H]]; congruence.
    + destruct H as [[H|H]|[H|H]]; try discriminate;
        apply P in H as [(l & m & H)|[H|H]]; congruence.
  - rewrite (main_handler_raised w args e R). cbn [trace fst In].
    repeat split; intros; intuition discriminate.
Qed.

Lemma other_formats_keep_raw_path_witness :
  let w := Samples.host "linux" Samples.raw_wav in
  let args := Samples.resolved None "WAV" in
  convert w args Samples.raw_wav = ret Samples.raw_wav
  /\ ~ In (Unlink Samples.raw_wav) (trace (main w args)).
Proof.
  assert (F : format (Samples.resolved None "WAV") <> "M4A") by discriminate.
  pose proof (other_formats_keep_raw_path
                (Samples.host "linux" Samples.raw_wav)
                (Samples.resolved None "WAV") F) as (C & _ & U & _).
  split; [apply C | apply U].
Defined.

(** C3: when [copy_metadata] fails because it does not know the
    format, [main] logs the failure and goes on: the dates are copied
    next, as they are after a tag copy that succeeded, and the last
    block runs as usual (the raw file is removed when the output path is
    another path).  A failure of the date copy is not caught: it ends
    [main]. *)
Theorem unsupported_tags_do_not_stop_main (w : Collaborators)
    (args : ProgramArgsNamespace) (raw out : Path)
    (Hraw : extend_track_runner w (loop_export_handler args) = Returned raw)
    (Hout : result (convert w args raw) = Returned out)
    (Htags : tag_copy_tolerated (copy_metadata w (input_file_path args) out) = true) :
  (exists before,
     trace (main w args)
     = (before
        ++ CopyMetadata (input_file_path args) out
        :: tag_copy_log (copy_metadata w (input_file_path args) out)
        ++ Log INFO (copying_message (input_file_path args) out)
        :: CopyFiledate (input_file_path args) out
        :: match copy_filedate w (input_file_path args) out with
           | Returned _ => trace (cleanup w raw out)
           | Raised _ => []
           end)%list)
  /\ (forall exc, copy_metadata w (input_file_path args) out = Raised exc ->
      is_UnsupportedFormat exc = true
      /\ tag_copy_log (copy_metadata w (input_file_path args) out)
         = [Log INFO (failed_message exc)])
  /\ (forall e, copy_filedate w (input_file_path args) out = Raised e ->
      result (main w args) = Raised e)
  /\ (copy_filedate w (input_file_path args) out = Returned tt ->
      result (main w args) = result (cleanup w raw out)
      /\ (In (Unlink raw) (trace (main w args)) <-> out <> raw)).
Proof.
  destruct (main_after_convert w args raw out Hraw Hout Htags) as [T R].
  split; [|split; [|split]].
  - exists (ExtendTrack (loop_export_handler args)
            :: trace (convert w args raw)
            ++ [Log INFO (attempting_message (input_file_path args) out)])%list.
    rewrite T. cbn [app]. f_equal. now rewrite <- app_assoc.
  - intros exc E. rewrite E in Htags |- *. split; [exact Htags | reflexivity].
  - intros e E. now rewrite R, E.
  - intros E. split; [now rewrite R, E|].
    now apply raw_deleted_iff_paths_differ.
Qed.

Lemma unsupported_tags_do_not_stop_main_witness :
  let w := Samples.host_without_tags Samples.raw_wav in
  let args := Samples.resolved (Some Samples.f10) "M4A" in
  result (main w args) = Returned tt
  /\ In (Unlink Samples.raw_wav) (trace (main w args)).
Proof.
  pose proof (unsupported_tags_do_not_stop_main
                (Samples.host_without_tags Samples.raw_wav)
                (Samples.resolved (Some Samples.f10) "M4A")
                Samples.raw_wav (m4a_path Samples.raw_wav)
                eq_refl eq_refl eq_refl) as (_ & _ & _ & H).
  destruct (H eq_refl) as [R U].
  split; [exact R | apply U; discriminate].
Defined.

(** C1: for a request for M4A, with an export handler that names its
    file after the format it was given and with ffmpeg, the tag copy
    (or its unsupported-format failure) and the date copy going
    through: the output path is the raw path with [.m4a] as its
    suffix, it is another path than the raw one, the tags and dates are
    copied onto it, and the last thing [main] does is to remove the raw
    file; the raw file is removed exactly when the two paths differ. *)
Theorem m4a_request_converts_and_cleans (w : Collaborators)
    (args : ProgramArgsNamespace) (raw : Path)
    (Hfmt : format args = "M4A")
    (Hraw : extend_track_runner w (loop_export_handler args) = Returned raw)
    (Hsfx : PathOps.suffix raw
            = "." ++ Str.lower (LoopExportHandler.format (loop_export_handler args)))
    (Henc : ffmpeg_run w (ffmpeg_compile raw (m4a_path raw)) = Returned tt)
    (Htags : tag_copy_tolerated
               (copy_metadata w (input_file_path args) (m4a_path raw)) = true)
    (Hdate : copy_filedate w (input_file_path args) (m4a_path raw) = Returned tt) :
  PathOps.with_suffix raw ".m4a" = Some (m4a_path raw)
  /\ result (convert w args raw) = Returned (m4a_path raw)
  /\ m4a_path raw <> raw
  /\ (exists before,
        trace (main w args)
        = (before
           ++ CopyMetadata (input_file_path args) (m4a_path raw)
           :: tag_copy_log (copy_metadata w (input_file_path args) (m4a_path raw))
           ++ [Log INFO (copying_message (input_file_path args) (m4a_path raw));
               CopyFiledate (input_file_path args) (m4a_path raw);
               Log INFO (deleting_message raw);
               Unlink raw])%list)
  /\ result (main w args) = unlink w raw
  /\ (In (Unlink raw) (trace (main w args)) <-> m4a_path raw <> raw).
Proof.
  assert (S : PathOps.suffix raw = ".wav").
  { rewrite Hsfx. unfold loop_export_handler, format_;
      cbn [LoopExportHandler.format]. now rewrite Hfmt. }
  assert (N : PathOps.name raw <> "").
  { apply PathFacts.suffix_name_nonempty. rewrite S. discriminate. }
  destruct (with_format_suffix_m4a args raw Hfmt N) as [W _].
  assert (C : result (convert w args raw) = Returned (m4a_path raw))
    by (now rewrite (convert_m4a w args raw Hfmt N Henc)).
  assert (D : m4a_path raw <> raw).
  { intros E. apply (PathFacts.with_suffix_same raw _ _ W) in E.
    rewrite S in E. discriminate. }
  destruct (main_after_convert w args raw _ Hraw C Htags) as [T R].
  rewrite Hdate, (cleanup_differs w raw _ D) in T, R.
  cbn [trace result fst snd] in T, R.
  repeat split; auto.
  - exists (ExtendTrack (loop_export_handler args)
            :: trace (convert w args raw)
            ++ [Log INFO (attempting_message (input_file_path args) (m4a_path raw))])%list.
    rewrite T. cbn [app]. f_equal. now rewrite <- app_assoc.
  - intros _. rewrite T. right. apply in_or_app. right. right. right.
    apply in_or_app. right. simpl. auto.
Qed.

Lemma m4a_request_converts_and_cleans_witness :
  let w := Samples.host "linux" Samples.raw_wav in
  let args := Samples.resolved (Some Samples.f10) "M4A" in
  m4a_path Samples.raw_wav = mkPath "/" ["music"; "song-extended.m4a"]
  /\ m4a_path Samples.raw_wav <> Samples.raw_wav
  /\ result (main w args) = Returned tt.
Proof.
  pose proof (m4a_request_converts_and_cleans
                (Samples.host "linux" Samples.raw_wav)
                (Samples.resolved (Some Samples.f10) "M4A")
                Samples.raw_wav eq_refl eq_refl eq_refl eq_refl eq_refl eq_refl)
    as (_ & _ & D & _ & R & _).
  split; [reflexivity|]. split; [exact D | exact R].
Defined.

(** The output directory of the namespace [get_args] returns. *)
Lemma output_dir_of_get_args (w : Collaborators)
    (parsed args : ProgramArgsNamespace) :
  result (get_args w parsed) = Returned args ->
  output_dir args
  = Some (match output_dir parsed with
          | Some d => d
          | None => PathOps.parent (input_file_path parsed)
          end).
Proof.
  unfold get_args, fade_length_is_zero.
  destruct (output_dir parsed) as [d|] eqn:Eo; simpl;
    destruct (match fade_length parsed with
              | Some f => Float.eq_zero f | None => false end);
    try discriminate;
    destruct (_ && _); try discriminate;
    destruct (interactive parsed); simpl; intros [= <-]; simpl; auto.
Qed.

(** ** Argument resolution, further *)

(** X1: [get_args] touches the environment only once the checks have
    passed: when it returns, its one effect is to set
    [PML_INTERACTIVE_MODE] to [1] for an interactive request and
    nothing otherwise; when it raises, it has done nothing, interactive
    or not. *)
Theorem get_args_sets_interactive_mode (w : Collaborators)
    (parsed : ProgramArgsNamespace) :
  (forall args, result (get_args w parsed) = Returned args ->
   trace (get_args w parsed)
   = if interactive parsed then [SetEnviron "PML_INTERACTIVE_MODE" "1"] else [])
  /\ (forall e, result (get_args w parsed) = Raised e ->
      trace (get_args w parsed) = []).
Proof.
  unfold get_args, fade_length_is_zero.
  destruct (output_dir parsed); simpl;
    destruct (match fade_length parsed with
              | Some f => Float.eq_zero f | None => false end); simpl;
    try (split; [discriminate | reflexivity]);
    destruct (_ && _); simpl;
    try (split; [discriminate | reflexivity]);
    destruct (interactive parsed); simpl;
    (split; [reflexivity | discriminate]).
Qed.

(** X2: on the namespace [parse_args] handed over (its format is
    one of the [choices]), the two checks are all that the rest of
    [get_args] refuses: it returns a namespace
    exactly when the fade length is not zero and the request is not one
    for OGG on Windows.  When both checks fail, the error is the one of
    the fade length.  (What [parse_args] itself refuses, an unknown
    format or a missing length, never reaches these lines.) *)
Theorem get_args_returns_iff (w : Collaborators) (parsed : ProgramArgsNamespace)
    (Hparsed : In (format parsed) choices) :
  ((exists args, result (get_args w parsed) = Returned args)
   <-> fade_length_is_zero parsed = false
       /\ ~ (format parsed = "OGG" /\ get_platform w = "windows"))
  /\ (fade_length_is_zero parsed = true ->
      result (get_args w parsed)
      = Raised (ArgumentError fade_length_arg fade_length_message))
  /\ (fade_length_is_zero parsed = false ->
      format parsed = "OGG" -> get_platform w = "windows" ->
      result (get_args w parsed)
      = Raised (ArgumentError format_arg format_message)).
Proof.
  assert (O : String.eqb (format parsed) "OGG"
              && String.eqb (get_platform w) "windows" = false
              <-> ~ (format parsed = "OGG" /\ get_platform w = "windows")).
  { rewrite <- not_true_iff_false, andb_true_iff, !String.eqb_eq. tauto. }
  split; [|split].
  - split.
    + intros [args H].
      destruct (fade_length_is_zero parsed) eqn:Z.
      * apply (get_args_fade_error_iff w) in Z as [m Z]. congruence.
      * split; [reflexivity|]. apply O.
        destruct (_ && _) eqn:E; [|reflexivity].
        exfalso. revert H. unfold get_args.
        destruct (output_dir parsed); simpl.
        -- now rewrite Z, E.
        -- unfold fade_length_is_zero in *; simpl. now rewrite Z, E.
    + intros [Z N]. apply get_args_succeeds; [exact Z | now apply O].
  - intros Z. unfold get_args.
    destruct (output_dir parsed); simpl.
    + now rewrite Z.
    + unfold fade_length_is_zero in *; simpl. now rewrite Z.
  - intros Z F P. unfold get_args.
    destruct (output_dir parsed); simpl.
    + now rewrite Z, F, P.
    + unfold fade_length_is_zero in *; simpl. now rewrite Z, F, P.
Qed.

Lemma get_args_returns_iff_witness :
  (exists args,
     result (get_args (Samples.host "linux" Samples.raw_wav)
                      (Samples.request (Some Samples.fneg) "OGG")) = Returned args)
  /\ result (get_args (Samples.host "windows" Samples.raw_wav)
                      (Samples.request (Some (S754_zero false)) "OGG"))
     = Raised (ArgumentError fade_length_arg fade_length_message).
Proof.
  assert (C : In "OGG" choices) by (cbv; tauto).
  split.
  - apply (get_args_returns_iff (Samples.host "linux" Samples.raw_wav)
             (Samples.request (Some Samples.fneg) "OGG") C).
    split; [reflexivity | intros [_ H]; discriminate].
  - apply (get_args_returns_iff (Samples.host "windows" Samples.raw_wav)
             (Samples.request (Some (S754_zero false)) "OGG") C).
    reflexivity.
Defined.

(** X3: a namespace that [get_args] returned passes [get_args]
    again, unchanged and with the same effect. *)
Theorem get_args_idempotent (w : Collaborators)
    (parsed args : ProgramArgsNamespace)
    (Hok : result (get_args w parsed) = Returned args) :
  get_args w args = get_args w parsed.
Proof.
  pose proof (get_args_fields w parsed args Hok) as (_ & _ & _ & F & _ & _ & M & I).
  revert Hok. unfold get_args, fade_length_is_zero.
  destruct (output_dir parsed) as [d|] eqn:Eo; simpl.
  - destruct (match fade_length parsed with
              | Some f => Float.eq_zero f | None => false end) eqn:Z;
      [discriminate|].
    destruct (_ && _) eqn:E; [discriminate|].
    destruct (interactive parsed) eqn:Ei; simpl; intros [= <-];
      rewrite Eo; simpl; now rewrite Z, E, Ei.
  - destruct (match fade_length parsed with
              | Some f => Float.eq_zero f | None => false end) eqn:Z;
      [discriminate|].
    destruct (_ && _) eqn:E; [discriminate|].
    destruct (interactive parsed) eqn:Ei; simpl; intros [= <-]; simpl;
      now rewrite Z, E.
Qed.

Lemma get_args_idempotent_witness :
  let w := Samples.host "linux" Samples.raw_wav in
  get_args w (Samples.resolved (Some Samples.f10) "M4A")
  = get_args w (Samples.request (Some Samples.f10) "M4A").
Proof.
  exact (get_args_idempotent (Samples.host "linux" Samples.raw_wav)
           (Samples.request (Some Samples.f10) "M4A")
           (Samples.resolved (Some Samples.f10) "M4A") eq_refl).
Defined.

(** X4: for a namespace that passed [get_args], the export handler
    is given the input path and the output directory as strings: the
    directory the caller named, or else the parent of the input path;
    the target length goes through unchanged. *)
Theorem handler_paths_of_request (w : Collaborators)
    (parsed args : ProgramArgsNamespace)
    (Hok : result (get_args w parsed) = Returned args) :
  LoopExportHandler.path (loop_export_handler args)
  = PathOps.str (input_file_path parsed)
  /\ LoopExportHandler.output_dir (loop_export_handler args)
     = PathOps.str (match output_dir parsed with
                    | Some d => d
                    | None => PathOps.parent (input_file_path parsed)
                    end)
  /\ LoopExportHandler.extended_length (loop_export_handler args)
     = extended_length parsed.
Proof.
  pose proof (get_args_fields w parsed args Hok) as (P & L & _).
  pose proof (output_dir_of_get_args w parsed args Hok) as D.
  unfold loop_export_handler; simpl. rewrite P, L, D. auto.
Qed.

Lemma handler_paths_of_request_witness :
  exists args,
    result (get_args (Samples.host "linux" Samples.raw_wav)
                     (Samples.request None "FLAC")) = Returned args
    /\ LoopExportHandler.path (loop_export_handler args) = "/music/song.wav"
    /\ LoopExportHandler.output_dir (loop_export_handler args) = "/music".
Proof.
  eexists. split; [reflexivity|].
  pose proof (handler_paths_of_request
                (Samples.host "linux" Samples.raw_wav)
                (Samples.request None "FLAC") _ eq_refl) as (P & D & _).
  split; [exact P | exact D].
Defined.

(** ** The blocks of [main], case by case *)

Lemma with_suffix_m4a_inv (raw out : Path) :
  PathOps.with_suffix raw ".m4a" = Some out ->
  PathOps.name raw <> "" /\ out = m4a_path raw.
Proof.
  unfold PathOps.with_suffix.
  change (negb (PathOps.valid_suffix ".m4a")) with false. cbv iota.
  destruct (String.eqb (PathOps.name raw) "") eqn:E; [discriminate|].
  apply String.eqb_neq in E. intros [= <-]. now split.
Qed.

Lemma convert_m4a_cases (w : Collaborators) (args : ProgramArgsNamespace)
    (raw : Path) :
  format args = "M4A" ->
  convert w args raw
  = match PathOps.with_suffix raw ".m4a" with
    | None =>
        ([Log INFO (converting_message raw)],
         Raised (ValueError (with_suffix_error raw ".m4a")))
    | Some out =>
        match ffmpeg_run w (ffmpeg_compile raw out) with
        | Returned _ =>
            ([Log INFO (converting_message raw);
              Log INFO (renaming_message raw out);
              Log INFO (Str.join " " (ffmpeg_compile raw out));
              FfmpegRun (ffmpeg_compile raw out)],
             Returned out)
        | Raised e =>
            if is_Exception e then
              ([Log INFO (converting_message raw);
                Log INFO (renaming_message raw out);
                Log INFO (Str.join " " (ffmpeg_compile raw out));
                FfmpegRun (ffmpeg_compile raw out);
                Log ERROR ("    " ++ Str.join " " (ffmpeg_compile raw out))],
               Raised e)
            else
              ([Log INFO (converting_message raw);
                Log INFO (renaming_message raw out);
                Log INFO (Str.join " " (ffmpeg_compile raw out));
                FfmpegRun (ffmpeg_compile raw out)],
               Raised e)
        end
    end.
Proof.
  intros F. unfold convert, with_format_suffix. rewrite F.
  change ("." ++ Str.lower "M4A") with ".m4a".
  cbn [String.eqb Ascii.eqb Bool.eqb].
  destruct (PathOps.with_suffix raw ".m4a") as [out|]; [|reflexivity].
  unfold bind, try_except, call, log, emit, ret, raise, trace, result;
    cbn [fst snd].
  destruct (ffmpeg_run w (ffmpeg_compile raw out)) as [[]|e];
    cbn [fst snd]; [reflexivity|].
  now destruct (is_Exception e).
Qed.

Lemma propagate_cases (w : Collaborators) (input output : Path) :
  propagate w input output
  = match copy_metadata w input output with
    | Returned _ =>
        ([Log INFO (attempting_message input output);
          CopyMetadata input output;
          Log INFO (copying_message input output);
          CopyFiledate input output],
         copy_filedate w input output)
    | Raised e =>
        if is_UnsupportedFormat e then
          ([Log INFO (attempting_message input output);
            CopyMetadata input output;
            Log INFO (failed_message e);
            Log INFO (copying_message input output);
            CopyFiledate input output],
           copy_filedate w input output)
        else
          ([Log INFO (attempting_message input output);
            CopyMetadata input output],
           Raised e)
    end.
Proof.
  destruct (copy_metadata w input output) as [[]|e] eqn:M.
  - rewrite propagate_tolerated by (now rewrite M). now rewrite M.
  - destruct (is_UnsupportedFormat e) eqn:U.
    + rewrite propagate_tolerated by (now rewrite M). now rewrite M.
    + now apply propagate_fatal.
Qed.

Lemma cleanup_cases (w : Collaborators) (raw out : Path) :
  cleanup w raw out
  = if PathOps.eqb out raw then ([], Returned tt)
    else ([Log INFO (deleting_message raw); Unlink raw], unlink w raw).
Proof.
  destruct (PathOps.eqb out raw) eqn:E.
  - apply PathFacts.eqb_eq in E. subst out. apply cleanup_same.
  - apply PathFacts.eqb_neq in E. now apply cleanup_differs.
Qed.

(** [main] stops at the first block that raises. *)
Lemma main_cases (w : Collaborators) (args : ProgramArgsNamespace) :
  main w args
  = match extend_track_runner w (loop_export_handler args) with
    | Raised e => ([ExtendTrack (loop_export_handler args)], Raised e)
    | Returned raw =>
        match result (convert w args raw) with
        | Raised e =>
            (ExtendTrack (loop_export_handler args) :: trace (convert w args raw),
             Raised e)
        | Returned out =>
            match result (propagate w (input_file_path args) out) with
            | Raised e =>
                ((ExtendTrack (loop_export_handler args)
                  :: trace (convert w args raw)
                  ++ trace (propagate w (input_file_path args) out))%list,
                 Raised e)
            | Returned _ =>
                ((ExtendTrack (loop_export_handler args)
                  :: trace (convert w args raw)
                  ++ trace (propagate w (input_file_path args) out)
                  ++ trace (cleanup w raw out))%list,
                 result (cleanup w raw out))
            end
        end
    end.
Proof.
  destruct (extend_track_runner w (loop_export_handler args)) as [raw|e] eqn:R;
    [|now apply main_handler_raised].
  unfold main; cbv zeta.
  rewrite (bind_returned (call _ _) _ raw) by exact R.
  unfold call at 1; cbn [trace fst app].
  destruct (result (convert w args raw)) as [out|e] eqn:C.
  - rewrite (bind_returned (convert w args raw) _ out C).
    destruct (result (propagate w (input_file_path args) out)) as [[]|e] eqn:P.
    + now rewrite (bind_returned (propagate w _ _) _ tt P).
    + now rewrite (bind_raised (propagate w _ _) _ e P).
  - now rewrite (bind_raised (convert w args raw) _ e C).
Qed.

(** Case analysis on a run of [main]. *)
Ltac main_run w args :=
  rewrite (main_cases w args);
  destruct (extend_track_runner w (loop_export_handler args)) as [raw|e] eqn:R;
  [ destruct (String.eqb (format args) "M4A") eqn:Fb;
    [ pose proof (proj1 (String.eqb_eq _ _) Fb) as F;
      rewrite (convert_m4a_cases w args raw F);
      destruct (PathOps.with_suffix raw ".m4a") as [out|] eqn:W;
      [ apply with_suffix_m4a_inv in W as [N ->];
        destruct (ffmpeg_run w (ffmpeg_compile raw (m4a_path raw)))
          as [[]|e] eqn:E;
        [ | destruct (is_Exception e) eqn:Exc ]
      | ]
    | pose proof (proj1 (String.eqb_neq _ _) Fb) as F;
      rewrite (convert_other w args raw F) ]
  | ];
  unfold ret; cbn [trace result fst snd];
  rewrite ?propagate_cases, ?cleanup_cases;
  repeat (run_step w; cbn [trace result fst snd app]).

(** ** The pipeline, further *)

(** X5: a failure of the export handler ends [main] at once with
    that exception: nothing is converted, copied or removed. *)
Theorem handler_failure_ends_main (w : Collaborators)
    (args : ProgramArgsNamespace) (e : exn)
    (Hraw : extend_track_runner w (loop_export_handler args) = Raised e) :
  trace (main w args) = [ExtendTrack (loop_export_handler args)]
  /\ result (main w args) = Raised e.
Proof.
  now rewrite (main_handler_raised w args e Hraw).
Qed.

Lemma handler_failure_ends_main_witness :
  result (main Samples.host_without_loop (Samples.resolved None "M4A"))
  = Raised (Failure "LoopNotFoundError()").
Proof.
  exact (proj2 (handler_failure_ends_main Samples.host_without_loop
                  (Samples.resolved None "M4A") _ eq_refl)).
Defined.

(** X6: when ffmpeg fails on a request for M4A, [main] ends with
    the exception of ffmpeg right after the ffmpeg run: no tags or
    dates are copied and the raw file is left where it is.  An
    exception of class [Exception] is caught and raised again, after
    the command has been logged once more, at ERROR level and indented;
    any other one ([KeyboardInterrupt], [SystemExit]) passes through
    without that line. *)
Theorem ffmpeg_failure_is_logged_and_fatal (w : Collaborators)
    (args : ProgramArgsNamespace) (raw : Path) (e : exn)
    (Hfmt : format args = "M4A")
    (Hraw : extend_track_runner w (loop_export_handler args) = Returned raw)
    (Hname : PathOps.name raw <> "")
    (Henc : ffmpeg_run w (ffmpeg_compile raw (m4a_path raw)) = Raised e) :
  trace (main w args)
  = ([ExtendTrack (loop_export_handler args);
      Log INFO (converting_message raw);
      Log INFO (renaming_message raw (m4a_path raw));
      Log INFO (Str.join " " (ffmpeg_compile raw (m4a_path raw)));
      FfmpegRun (ffmpeg_compile raw (m4a_path raw))]
     ++ if is_Exception e
        then [Log ERROR ("    " ++ Str.join " " (ffmpeg_compile raw (m4a_path raw)))]
        else [])%list
  /\ result (main w args) = Raised e.
Proof.
  rewrite (main_cases w args), Hraw, (convert_m4a_cases w args raw Hfmt).
  rewrite (proj1 (with_format_suffix_m4a args raw Hfmt Hname)), Henc.
  destruct (is_Exception e); cbn [trace result fst snd app]; auto.
Qed.

Lemma ffmpeg_failure_is_logged_and_fatal_witness :
  (let w := Samples.host_without_ffmpeg Samples.raw_wav in
   let args := Samples.resolved None "M4A" in
   result (main w args) = Raised (Failure "ffmpeg.Error('ffmpeg', b'', b'')")
   /\ In (Log ERROR
            ("    " ++ Str.join " " (ffmpeg_compile Samples.raw_wav
                                                   (m4a_path Samples.raw_wav))))
         (trace (main w args))
   /\ ~ In (Unlink Samples.raw_wav) (trace (main w args)))
  /\ (let w := Samples.host_interrupted Samples.raw_wav in
      let args := Samples.resolved None "M4A" in
      result (main w args) = Raised (BaseFailure "KeyboardInterrupt()")
      /\ forall message, ~ In (Log ERROR message) (trace (main w args))).
Proof.
  assert (N : PathOps.name Samples.raw_wav <> "") by discriminate.
  split.
  - pose proof (ffmpeg_failure_is_logged_and_fatal
                  (Samples.host_without_ffmpeg Samples.raw_wav)
                  (Samples.resolved None "M4A") Samples.raw_wav _
                  eq_refl eq_refl N eq_refl) as [T R].
    split; [exact R|]. rewrite T. simpl. split; [tauto | intuition discriminate].
  - pose proof (ffmpeg_failure_is_logged_and_fatal
                  (Samples.host_interrupted Samples.raw_wav)
                  (Samples.resolved None "M4A") Samples.raw_wav _
                  eq_refl eq_refl N eq_refl) as [T R].
    split; [exact R|]. rewrite T. simpl. intros message. intuition discriminate.
Defined.

(** X7: an exception of [copy_metadata] other than
    [UnsupportedFormat] is not caught: [main] ends with it right after
    the tag copy, without the failure line in the log, without the
    date copy and without removing anything. *)
Theorem other_tag_failure_is_fatal (w : Collaborators)
    (args : ProgramArgsNamespace) (raw out : Path) (e : exn)
    (Hraw : extend_track_runner w (loop_export_handler args) = Returned raw)
    (Hout : result (convert w args raw) = Returned out)
    (Htags : copy_metadata w (input_file_path args) out = Raised e)
    (Hother : is_UnsupportedFormat e = false) :
  trace (main w args)
  = (ExtendTrack (loop_export_handler args)
     :: trace (convert w args raw)
     ++ [Log INFO (attempting_message (input_file_path args) out);
         CopyMetadata (input_file_path args) out])%list
  /\ result (main w args) = Raised e.
Proof.
  rewrite (main_cases w args), Hraw, Hout.
  rewrite (propagate_fatal w _ _ e Htags Hother).
  cbn [trace result fst snd]. auto.
Qed.

Lemma other_tag_failure_is_fatal_witness :
  let w := Samples.host_with_broken_tags Samples.raw_wav in
  let args := Samples.resolved None "WAV" in
  result (main w args) = Raised (Failure "PermissionError(13, 'Permission denied')")
  /\ trace (main w args)
     = [ExtendTrack (loop_export_handler args);
        Log INFO (attempting_message Samples.song Samples.raw_wav);
        CopyMetadata Samples.song Samples.raw_wav].
Proof.
  pose proof (other_tag_failure_is_fatal
                (Samples.host_with_broken_tags Samples.raw_wav)
                (Samples.resolved None "WAV") Samples.raw_wav Samples.raw_wav _
                eq_refl eq_refl eq_refl eq_refl) as [T R].
  split; [exact R | exact T].
Defined.

Ltac path_eqs :=
  repeat match goal with
  | H : PathOps.eqb _ _ = true |- _ => apply PathFacts.eqb_eq in H
  | H : PathOps.eqb _ _ = false |- _ => apply PathFacts.eqb_neq in H
  end.

(** X8: [main] returns exactly when every block went through: the
    export handler returned a raw path; for M4A that path has a name
    and ffmpeg succeeded; the tag copy succeeded or did not know the
    format; the date copy succeeded; and, when the delivered path is
    another path than the raw one, the raw file could be removed. *)
Theorem main_returns_iff (w : Collaborators) (args : ProgramArgsNamespace) :
  result (main w args) = Returned tt
  <-> exists raw,
        extend_track_runner w (loop_export_handler args) = Returned raw
        /\ (format args = "M4A" ->
            PathOps.name raw <> ""
            /\ ffmpeg_run w (ffmpeg_compile raw (m4a_path raw)) = Returned tt)
        /\ tag_copy_tolerated
             (copy_metadata w (input_file_path args) (delivered args raw)) = true
        /\ copy_filedate w (input_file_path args) (delivered args raw) = Returned tt
        /\ (delivered args raw <> raw -> unlink w raw = Returned tt).
Proof.
  unfold delivered.
  main_run w args.
  all: path_eqs.
  all: split;
    [ intros H; try discriminate; exists raw
    | intros (raw0 & R0 & Hf & Ht & Hd & Hu); try discriminate;
      injection R0 as <-; try reflexivity; exfalso ].
  all: rewrite ?Fb in *.
  all: try (repeat split; intros; try assumption; try congruence;
            match goal with
            | M : copy_metadata _ _ _ = _ |- _ => now rewrite M
            end).
  all: try (specialize (Hu ltac:(assumption)); congruence).
  all: try (destruct (Hf F) as [? ?]; congruence).
  all: try (match goal with
            | M : copy_metadata _ _ _ = _ |- _ => rewrite M in Ht
            end; simpl in Ht; congruence).
  destruct (Hf F) as [N' _].
  rewrite (PathFacts.with_suffix_defined raw ".m4a" eq_refl N') in W.
  discriminate.
Qed.

(** X9: the calls of [main] come in one fixed order: the export
    handler, ffmpeg (for M4A only), the tag copy, the date copy, the
    removal of the raw file (when the delivered path is another one).
    Every run performs a beginning of that sequence, and all of it when
    [main] returns; when the export handler fails, it is the only
    call. *)
Theorem main_calls_follow_pipeline (w : Collaborators) (args : ProgramArgsNamespace) :
  (forall raw, extend_track_runner w (loop_export_handler args) = Returned raw ->
   exists rest,
     pipeline args raw = (calls (trace (main w args)) ++ rest)%list
     /\ (result (main w args) = Returned tt -> rest = []))
  /\ (forall e, extend_track_runner w (loop_export_handler args) = Raised e ->
      calls (trace (main w args)) = [ExtendTrack (loop_export_handler args)]).
Proof.
  split.
  - intros raw0 R0. unfold pipeline, delivered.
    main_run w args.
    all: try discriminate.
    all: injection R0 as <-.
    all: rewrite ?Heqb.
    all: cbn [calls filter is_call app].
    all: try congruence.
    all: eexists; (split; [reflexivity | intros; try discriminate; reflexivity]).
  - intros e0 R. rewrite (main_handler_raised w args e0 R). reflexivity.
Qed.

(** X10: ffmpeg is run for a request for M4A only, once the export
    handler has returned a raw path with a name, and then with the
    command [ffmpeg -i RAW -acodec aac -map 0:a RAW.m4a], where
    [RAW.m4a] is the raw path with the suffix [.m4a]. *)
Theorem ffmpeg_runs_only_for_m4a (w : Collaborators) (args : ProgramArgsNamespace)
    (cmd : list string)
    (Hrun : In (FfmpegRun cmd) (trace (main w args))) :
  format args = "M4A"
  /\ exists raw,
       extend_track_runner w (loop_export_handler args) = Returned raw
       /\ PathOps.name raw <> ""
       /\ cmd = ["ffmpeg"; "-i"; PathOps.str raw; "-acodec"; "aac";
                 "-map"; "0:a"; PathOps.str (m4a_path raw)].
Proof.
  revert Hrun. main_run w args.
  all: cbn [In]; intros H;
    repeat (destruct H as [H|H]; [try discriminate|]); try contradiction.
  all: injection H as <-; split; [exact F|]; exists raw; auto.
Qed.

Lemma ffmpeg_runs_only_for_m4a_witness :
  format (Samples.resolved None "M4A") = "M4A"
  /\ exists raw,
       extend_track_runner (Samples.host "linux" Samples.raw_wav)
         (loop_export_handler (Samples.resolved None "M4A")) = Returned raw
       /\ PathOps.name raw <> ""
       /\ ffmpeg_compile Samples.raw_wav (m4a_path Samples.raw_wav)
          = ["ffmpeg"; "-i"; PathOps.str raw; "-acodec"; "aac";
             "-map"; "0:a"; PathOps.str (m4a_path raw)].
Proof.
  apply (ffmpeg_runs_only_for_m4a (Samples.host "linux" Samples.raw_wav)
           (Samples.resolved None "M4A")).
  vm_compute. tauto.
Defined.

(** X11: the only file [main] ever removes is the raw file of a
    request for M4A, and only when the converted path is another path,
    after ffmpeg, the tag copy (or its unsupported-format failure) and
    the date copy went through. *)
Theorem only_the_raw_file_is_removed (w : Collaborators)
    (args : ProgramArgsNamespace) (p : Path)
    (Hrm : In (Unlink p) (trace (main w args))) :
  format args = "M4A"
  /\ extend_track_runner w (loop_export_handler args) = Returned p
  /\ m4a_path p <> p
  /\ ffmpeg_run w (ffmpeg_compile p (m4a_path p)) = Returned tt
  /\ tag_copy_tolerated (copy_metadata w (input_file_path args) (m4a_path p)) = true
  /\ copy_filedate w (input_file_path args) (m4a_path p) = Returned tt.
Proof.
  revert Hrm. main_run w args.
  all: path_eqs.
  all: cbn [In]; intros H;
    repeat (destruct H as [H|H]; [try discriminate|]); try contradiction.
  all: injection H as <-; repeat split; try assumption; try reflexivity.
  all: try congruence.
  all: simpl; try assumption; congruence.
Qed.

Lemma only_the_raw_file_is_removed_witness :
  m4a_path Samples.raw_wav <> Samples.raw_wav
  /\ extend_track_runner (Samples.host_without_tags Samples.raw_wav)
       (loop_export_handler (Samples.resolved None "M4A"))
     = Returned Samples.raw_wav.
Proof.
  assert (I : In (Unlink Samples.raw_wav)
                 (trace (main (Samples.host_without_tags Samples.raw_wav)
                              (Samples.resolved None "M4A"))))
    by (vm_compute; tauto).
  pose proof (only_the_raw_file_is_removed _ _ _ I) as (_ & R & D & _).
  split; [exact D | exact R].
Defined.

(** ** The converted path *)

Lemma rfind_app (c : ascii) (s t : string) :
  Str.rfind c (s ++ t)
  = match Str.rfind c t with
    | Some i => Some (String.length s + i)
    | None => Str.rfind c s
    end.
Proof.
  induction s as [|d r IH]; simpl.
  - now destruct (Str.rfind c t).
  - rewrite IH. now destruct (Str.rfind c t).
Qed.

Lemma drop_app_length (s t : string) : Str.drop (String.length s) (s ++ t) = t.
Proof.
  induction s as [|d r IH]; simpl; auto.
Qed.

Lemma length_take (n : nat) (s : string) :
  n <= String.length s -> String.length (Str.take n s) = n.
Proof.
  revert s; induction n as [|n IH]; intros [|c r]; simpl; intros H;
    try reflexivity; try lia.
  rewrite IH; lia.
Qed.

(** What [replace_suffix] keeps of a name is never empty. *)
Lemma replace_suffix_stem (n sfx : string) :
  n <> "" ->
  exists stem, stem <> "" /\ PathOps.replace_suffix n sfx = stem ++ sfx.
Proof.
  intros N. unfold PathOps.replace_suffix.
  destruct (PathOps.suffix_of_name n) as [|c old] eqn:E.
  - now exists n.
  - eexists. split; [|reflexivity].
    unfold PathOps.suffix_of_name in E.
    destruct (Str.rfind "."%char n) as [i|]; [|discriminate].
    destruct ((0 <? i)%nat && (i <? String.length n - 1)%nat) eqn:B;
      [|discriminate].
    apply andb_true_iff in B as [B1 B2].
    apply Nat.ltb_lt in B1. apply Nat.ltb_lt in B2.
    rewrite <- E, StrFacts.length_drop.
    replace (String.length n - (String.length n - i)) with i by lia.
    intros H. apply (f_equal String.length) in H.
    rewrite length_take in H by lia. simpl in H. lia.
Qed.

Lemma suffix_of_name_m4a (stem : string) :
  stem <> "" -> PathOps.suffix_of_name (stem ++ ".m4a") = ".m4a".
Proof.
  intros N. unfold PathOps.suffix_of_name.
  rewrite rfind_app. change (Str.rfind "."%char ".m4a") with (Some 0).
  cbv iota beta.
  rewrite Nat.add_0_r, StrFacts.length_app, drop_app_length.
  assert (L : 0 < String.length stem) by (destruct stem; simpl; [congruence | lia]).
  replace (0 <? String.length stem)%nat with true
    by (symmetry; now apply Nat.ltb_lt).
  replace (String.length stem <? String.length stem + String.length ".m4a" - 1)%nat
    with true by (symmetry; apply Nat.ltb_lt; simpl; lia).
  reflexivity.
Qed.

Lemma name_with_name (p : Path) (n : string) :
  PathOps.name (PathOps.with_name p n) = n.
Proof.
  unfold PathOps.name, PathOps.with_name; simpl. apply last_last.
Qed.

(** X12: the path an M4A request is converted to has the suffix
    [.m4a], lies in the directory of the raw path, and is left as it is
    by a further [with_suffix(".m4a")]. *)
Theorem m4a_path_suffix_and_directory (raw : Path)
    (Hname : PathOps.name raw <> "") :
  PathOps.suffix (m4a_path raw) = ".m4a"
  /\ PathOps.parent (m4a_path raw) = PathOps.parent raw
  /\ PathOps.with_suffix (m4a_path raw) ".m4a" = Some (m4a_path raw).
Proof.
  destruct (replace_suffix_stem (PathOps.name raw) ".m4a" Hname) as (stem & S & E).
  assert (X : PathOps.suffix (m4a_path raw) = ".m4a").
  { unfold PathOps.suffix, m4a_path. rewrite name_with_name, E.
    now apply suffix_of_name_m4a. }
  split; [exact X|]. split.
  - pose proof (PathFacts.name_nonempty_parts raw Hname) as P.
    unfold PathOps.parent, m4a_path, PathOps.with_name; simpl.
    destruct (removelast (parts raw) ++ [_])%list eqn:A.
    + symmetry in A. now apply app_cons_not_nil in A.
    + rewrite <- A, removelast_last. destruct (parts raw); [congruence | reflexivity].
  - assert (N : PathOps.name (m4a_path raw) <> "").
    { apply PathFacts.suffix_name_nonempty. rewrite X. discriminate. }
    pose proof (PathFacts.with_suffix_defined (m4a_path raw) ".m4a" eq_refl N) as W.
    rewrite W. f_equal. now apply (PathFacts.with_suffix_same _ _ _ W).
Qed.

Lemma m4a_path_suffix_and_directory_witness :
  PathOps.suffix (m4a_path (mkPath "/" ["music"; "song.tar.gz"])) = ".m4a"
  /\ PathOps.parent (m4a_path (mkPath "/" ["music"; "song.tar.gz"]))
     = mkPath "/" ["music"].
Proof.
  assert (N : PathOps.name (mkPath "/" ["music"; "song.tar.gz"]) <> "")
    by discriminate.
  pose proof (m4a_path_suffix_and_directory _ N) as (S & P & _).
  split; [exact S | exact P].
Defined.

(** ** The script *)

Lemma get_args_raised_trace (w : Collaborators) (parsed : ProgramArgsNamespace)
    (e : exn) :
  result (get_args w parsed) = Raised e -> trace (get_args w parsed) = [].
Proof.
  unfold get_args, fade_length_is_zero.
  destruct (output_dir parsed); simpl;
    destruct (match fade_length parsed with
              | Some f => Float.eq_zero f | None => false end); simpl;
    try reflexivity;
    destruct (_ && _); simpl; try reflexivity;
    destruct (interactive parsed); simpl; discriminate.
Qed.

(** X13: the script validates first: when [get_args] returns, the
    root logger is set up and [main] runs on the returned namespace,
    and the script ends as [main] does; when [get_args] raises, the
    script ends with that exception, and neither the logger is set up
    nor [main] run. *)
Theorem script_runs_main_after_get_args (w : Collaborators)
    (parsed : ProgramArgsNamespace) :
  (forall args, result (get_args w parsed) = Returned args ->
   trace (script w parsed)
   = (FilterWarnings "ignore" :: trace (get_args w parsed)
      ++ SetupRootLogger :: trace (main w args))%list
   /\ result (script w parsed) = result (main w args))
  /\ (forall e, result (get_args w parsed) = Raised e ->
      script w parsed = ([FilterWarnings "ignore"], Raised e)).
Proof.
  split.
  - intros args G. unfold script.
    rewrite (bind_returned (emit _) _ tt eq_refl).
    rewrite (bind_returned (get_args w parsed) _ args G).
    rewrite (bind_returned (emit _) _ tt eq_refl).
    cbn [trace result fst snd emit app]. auto.
  - intros e G. unfold script.
    rewrite (bind_returned (emit _) _ tt eq_refl).
    rewrite (bind_raised (get_args w parsed) _ e G).
    rewrite (get_args_raised_trace w parsed e G). reflexivity.
Qed.

(** ** What [main] logs as an error, what [get_args] keeps *)

(** X14: [main] logs at ERROR level in one situation only: ffmpeg
    failed on a request for M4A.  The line is then the ffmpeg command,
    indented by four spaces, and [main] ends with the exception of
    ffmpeg. *)
Theorem error_line_only_after_ffmpeg_failure (w : Collaborators)
    (args : ProgramArgsNamespace) (message : string)
    (Hlog : In (Log ERROR message) (trace (main w args))) :
  format args = "M4A"
  /\ exists raw e,
       extend_track_runner w (loop_export_handler args) = Returned raw
       /\ ffmpeg_run w (ffmpeg_compile raw (m4a_path raw)) = Raised e
       /\ message = "    " ++ Str.join " " (ffmpeg_compile raw (m4a_path raw))
       /\ result (main w args) = Raised e.
Proof.
  revert Hlog. main_run w args.
  all: cbn [In]; intros H;
    repeat (destruct H as [H|H]; [try discriminate|]); try contradiction.
  injection H as <-. split; [exact F|]. exists raw, e. auto.
Qed.

Lemma error_line_only_after_ffmpeg_failure_witness :
  exists raw e,
    extend_track_runner (Samples.host_without_ffmpeg Samples.raw_wav)
      (loop_export_handler (Samples.resolved None "M4A")) = Returned raw
    /\ ffmpeg_run (Samples.host_without_ffmpeg Samples.raw_wav)
         (ffmpeg_compile raw (m4a_path raw)) = Raised e
    /\ "    ffmpeg -i /music/song-extended.wav -acodec aac -map 0:a /music/song-extended.m4a"
       = "    " ++ Str.join " " (ffmpeg_compile raw (m4a_path raw))
    /\ result (main (Samples.host_without_ffmpeg Samples.raw_wav)
                    (Samples.resolved None "M4A")) = Raised e.
Proof.
  apply (error_line_only_after_ffmpeg_failure
           (Samples.host_without_ffmpeg Samples.raw_wav)
           (Samples.resolved None "M4A")).
  vm_compute. tauto.
Defined.

(** X15: [get_args] resolves the output directory and nothing else:
    every other field of the namespace it returns is the one that was
    parsed. *)
Theorem get_args_keeps_other_fields (w : Collaborators)
    (parsed args : ProgramArgsNamespace)
    (Hok : result (get_args w parsed) = Returned args) :
  args
  = mkArgs (input_file_path parsed) (extended_length parsed) (output_dir args)
           (min_duration_multiplier parsed) (fade_length parsed)
           (brute_force parsed) (show_progress_bar parsed)
           (format parsed) (interactive parsed).
Proof.
  pose proof (get_args_fields w parsed args Hok)
    as (<- & <- & <- & <- & <- & <- & <- & <-).
  now destruct args.
Qed.

Lemma get_args_keeps_other_fields_witness :
  exists args,
    result (get_args (Samples.host "linux" Samples.raw_wav)
                     (Samples.request (Some Samples.fneg) "MP3")) = Returned args
    /\ args = mkArgs Samples.song Samples.f180 (output_dir args) Samples.f035
                     (Some Samples.fneg) false false "MP3" false.
Proof.
  eexists. split; [reflexivity|].
  exact (get_args_keeps_other_fields
           (Samples.host "linux" Samples.raw_wav)
           (Samples.request (Some Samples.fneg) "MP3") _ eq_refl).
Defined.
